(** * Quiz backend: question service and explanation/feedback service

    A shallow embedding of the Python sources under [app/] and the
    properties of the specification proved (or refuted) on it.

    - [Py]: the fragment of Python the services rely on: [str] as a list of
      Unicode code points, [strip], truthiness, exceptions and the
      [try]/[except] outcome of a call.
    - [Exceptions], [Settings], [Schemas]: [app/core/exceptions.py],
      [app/config/settings.py], [app/models/schemas.py].
    - [Genai], [Firestore], [Random]: the external collaborators (the
      generative-text client, the document-store client, [random.sample]),
      modelled by what the services observe of them.
    - [GeminiService], [FirestoreService]: [app/services/*.py].

    Logging has no effect on results and is left out; [async]/[await] is
    sequential within one request and is modelled by plain calls. *)

From Stdlib Require Import ZArith NArith QArith List String Ascii Lia.
From stdpp Require Import base option list gmap sets strings sorting.

Local Open Scope Z_scope.

(* ===================================================================== *)
(** ** Python values                                                      *)
(* ===================================================================== *)

Module Py.

(** A Python [str] is a sequence of Unicode code points. *)
Abbreviation str := (list N).

(** String literals of the sources are written as Rocq strings (UTF-8
    bytes) and decoded to code points. *)
Fixpoint utf8_go (need : nat) (acc : N) (bs : list N) : str :=
  match bs with
  | [] => []
  | b :: bs' =>
    match need with
    | O =>
      if (b <? 128)%N then b :: utf8_go 0 0%N bs'
      else if (b <? 224)%N then utf8_go 1 (N.land b 31) bs'
      else if (b <? 240)%N then utf8_go 2 (N.land b 15) bs'
      else utf8_go 3 (N.land b 7) bs'
    | S O => (acc * 64 + N.land b 63)%N :: utf8_go 0 0%N bs'
    | S n => utf8_go n (acc * 64 + N.land b 63)%N bs'
    end
  end.

Definition lit (s : string) : str :=
  utf8_go 0 0%N (map N_of_ascii (list_ascii_of_string s)).
Arguments lit : simpl never.

(** [str.isspace] on one code point: the code points for which CPython's
    [Py_UNICODE_ISSPACE] holds. *)
Definition is_space (c : N) : bool :=
  ((9 <=? c) && (c <=? 13) || (28 <=? c) && (c <=? 32)
   || (c =? 133) || (c =? 160) || (c =? 5760)
   || (8192 <=? c) && (c <=? 8202)
   || (c =? 8232) || (c =? 8233) || (c =? 8239) || (c =? 8287)
   || (c =? 12288))%N.

Fixpoint lstrip (s : str) : str :=
  match s with
  | [] => []
  | c :: s' => if is_space c then lstrip s' else s
  end.

Definition rstrip (s : str) : str := rev (lstrip (rev s)).

(** [s.strip()] with no argument. *)
Definition strip (s : str) : str := rstrip (lstrip s).

(** Truthiness of a [str]: non-empty. *)
Definition str_truthy (s : str) : bool :=
  match s with [] => false | _ :: _ => true end.

(** Decimal rendering of an [int], as [str(n)] and [f"{n}"] give it. *)
Fixpoint digits (d : Decimal.uint) : str :=
  match d with
  | Decimal.Nil => []
  | Decimal.D0 d => 48%N :: digits d
  | Decimal.D1 d => 49%N :: digits d
  | Decimal.D2 d => 50%N :: digits d
  | Decimal.D3 d => 51%N :: digits d
  | Decimal.D4 d => 52%N :: digits d
  | Decimal.D5 d => 53%N :: digits d
  | Decimal.D6 d => 54%N :: digits d
  | Decimal.D7 d => 55%N :: digits d
  | Decimal.D8 d => 56%N :: digits d
  | Decimal.D9 d => 57%N :: digits d
  end.

Definition str_of_nat (n : nat) : str := digits (Nat.to_uint n).

Definition str_of_Z (z : Z) : str :=
  match Z.to_int z with
  | Decimal.Pos d => digits d
  | Decimal.Neg d => 45%N :: digits d
  end.

(** Order of sequences under [<=]: lexicographic, a proper prefix first. *)
Fixpoint lex_leb {A} (ltb : A -> A -> bool) (a b : list A) : bool :=
  match a, b with
  | [], _ => true
  | _ :: _, [] => false
  | x :: a', y :: b' =>
    if ltb x y then true
    else if ltb y x then false
    else lex_leb ltb a' b'
  end.

(** [a <= b] on [str]: lexicographic on code points. *)
Definition str_leb (a b : str) : bool := lex_leb N.ltb a b.
Definition str_ltb (a b : str) : bool := str_leb a b && negb (str_leb b a).

Definition str_le (a b : str) : Prop := str_leb a b = true.

#[global] Instance str_le_dec : RelDecision str_le.
Proof. intros a b. unfold str_le. apply _. Defined.

(** [a <= b] on lists of [str]. *)
Definition strs_le (a b : list str) : Prop := lex_leb str_ltb a b = true.

#[global] Instance strs_le_dec : RelDecision strs_le.
Proof. intros a b. unfold strs_le. apply _. Defined.

(** The values a stored document or a JSON body holds. *)
Inductive value :=
| VNone
| VInt (z : Z)
| VStr (s : str)
| VList (l : list str).

#[global] Instance value_eq_dec : EqDecision value.
Proof. solve_decision. Defined.

#[global] Instance value_countable : Countable value.
Proof.
  refine (inj_countable'
    (fun v => match v with
              | VNone => inl ()
              | VInt z => inr (inl z)
              | VStr s => inr (inr (inl s))
              | VList l => inr (inr (inr l))
              end)
    (fun x => match x with
              | inl _ => VNone
              | inr (inl z) => VInt z
              | inr (inr (inl s)) => VStr s
              | inr (inr (inr l)) => VList l
              end) _).
  by intros [].
Defined.

(** A [dict] with string keys. *)
Abbreviation dict := (gmap string value).

(** [bool(v)]. *)
Definition truthy (v : value) : bool :=
  match v with
  | VNone => false
  | VInt z => negb (z =? 0)
  | VStr s => str_truthy s
  | VList l => match l with [] => false | _ :: _ => true end
  end.

(** The [detail] of a FastAPI [HTTPException] as this application builds
    it: a dict with a ["message"] and, optionally, ["details"]. *)
Record Detail := mkDetail {
  detail_message : str;
  detail_details : option dict
}.

(** Exceptions, by class. Every class below derives from [Exception];
    [ClientError] and [ServerError] are the generative-text library's,
    [GoogleCloudError] the document store's. A library exception carries
    the text [str(e)] renders. *)
Inductive exn :=
| ClientError (msg : str)
| ServerError (msg : str)
| GoogleCloudError (msg : str)
| AttributeError (msg : str)
| IndexError (msg : str)
| TypeError (msg : str)
| ValueError (msg : str)
| OtherError (msg : str)
| QuizServiceException (message : str)
| FirestoreException (message : str)
| GeminiException (message : str)
| ValidationException (message : str)
| HTTPException (status_code : Z) (detail : Detail).

(** Python's [repr] of the detail dict depends on the interpreter's
    Unicode tables ([str.isprintable]); it is an interface here. *)
Class PyRepr := repr_detail : Detail -> str.

(** [str(e)]. An exception built from one argument renders as that
    argument; Starlette renders an [HTTPException] as
    [f"{status_code}: {detail}"]. *)
Definition str_of_exn `{PyRepr} (e : exn) : str :=
  match e with
  | ClientError m | ServerError m | GoogleCloudError m
  | AttributeError m | IndexError m | TypeError m | ValueError m
  | OtherError m => m
  | QuizServiceException m | FirestoreException m
  | GeminiException m | ValidationException m => m
  | HTTPException sc d => str_of_Z sc ++ lit ": " ++ repr_detail d
  end.

(** The outcome of a call: a value, or a raised exception. *)
Inductive result (A : Type) :=
| Ok (a : A)
| Raise (e : exn).
Arguments Ok {A} a.
Arguments Raise {A} e.

Definition bind {A B} (r : result A) (k : A -> result B) : result B :=
  match r with
  | Ok a => k a
  | Raise e => Raise e
  end.

(** [try: body  except ...: handler(e)]. *)
Definition try_except {A} (body : result A) (handler : exn -> result A)
  : result A :=
  match body with
  | Ok a => Ok a
  | Raise e => handler e
  end.

(** [l[i]] for [i >= 0]. *)
Definition index {A} (l : list A) (i : nat) : result A :=
  match l !! i with
  | Some x => Ok x
  | None => Raise (IndexError (lit "list index out of range"))
  end.

(** [sorted(l)]. Values of one kind are ordered among themselves; [<]
    between values of two kinds, or between two [None], is a [TypeError],
    which a list of two or more such values meets. *)
Definition strs_of (l : list value) : list str :=
  omap (fun v => match v with VStr s => Some s | _ => None end) l.
Definition ints_of (l : list value) : list Z :=
  omap (fun v => match v with VInt z => Some z | _ => None end) l.
Definition lists_of (l : list value) : list (list str) :=
  omap (fun v => match v with VList x => Some x | _ => None end) l.

Definition is_str (v : value) : bool :=
  match v with VStr _ => true | _ => false end.
Definition is_int (v : value) : bool :=
  match v with VInt _ => true | _ => false end.
Definition is_list (v : value) : bool :=
  match v with VList _ => true | _ => false end.

Definition sorted (l : list value) : result (list value) :=
  match l with
  | [] | [_] => Ok l
  | _ =>
    if forallb is_str l then Ok (VStr <$> merge_sort str_le (strs_of l))
    else if forallb is_int l then Ok (VInt <$> merge_sort Z.le (ints_of l))
    else if forallb is_list l
    then Ok (VList <$> merge_sort strs_le (lists_of l))
    else Raise (TypeError
                  (lit "'<' not supported between instances"))
  end.

(** [s.add(v)] on a [set]: a list is unhashable. *)
Definition set_add (v : value) (s : gset value) : result (gset value) :=
  match v with
  | VList _ => Raise (TypeError (lit "unhashable type: 'list'"))
  | _ => Ok ({[v]} ∪ s)
  end.

End Py.

Import Py.

Notation "x <- r ;; k" := (Py.bind r (fun x => k))
  (at level 100, r at next level, right associativity).

(* ===================================================================== *)
(** ** app/core/exceptions.py                                             *)
(* ===================================================================== *)

Module Exceptions.

(** [create_http_exception(status_code, message, details=None)]: the
    ["details"] entry is added only when [details] is truthy (a non-empty
    dict). *)
Definition create_http_exception (status_code : Z) (message : str)
    (details : option dict) : exn :=
  let detail := mkDetail message None in
  let detail :=
    match details with
    | Some d => if decide (d = ∅) then detail else mkDetail message (Some d)
    | None => detail
    end in
  HTTPException status_code detail.

End Exceptions.

(* ===================================================================== *)
(** ** app/config/settings.py                                             *)
(* ===================================================================== *)

Module Settings.

Definition gemini_model : str := lit "gemini-2.5-flash".
Definition max_questions_per_request : Z := 20.
Definition max_explanation_tokens : Z := 1000.
Definition max_feedback_tokens : Z := 1500.

End Settings.

(* ===================================================================== *)
(** ** app/models/schemas.py                                              *)
(* ===================================================================== *)

Module Schemas.

Record ExplanationRequest := mkExplanationRequest {
  question_text : str
}.

Record Question := mkQuestion {
  id : Z;
  question : str;
  options : list str;
  correct_answer : Z;
  subject : option str
}.

Record UserAttempt := mkUserAttempt {
  score : Z;
  total_questions : Z;
  answers : list Z
}.

Record FeedbackRequest := mkFeedbackRequest {
  questions : list Question;
  user_attempt : UserAttempt
}.

(** The field constraints request validation enforces on a body whose
    fields have the declared types. A body that fails them is answered
    with status 422 before any endpoint code runs. *)

(** [question_text: str = Field(..., min_length=1)] *)
Definition ExplanationRequest_accepts (r : ExplanationRequest) : bool :=
  (1 <=? length (question_text r))%nat.

(** [options: List[str] = Field(..., min_items=2)],
    [correct_answer: int = Field(..., ge=0)] *)
Definition Question_accepts (q : Question) : bool :=
  (2 <=? length (options q))%nat && (0 <=? correct_answer q).

(** [score: int = Field(..., ge=0)],
    [total_questions: int = Field(..., gt=0)] *)
Definition UserAttempt_accepts (a : UserAttempt) : bool :=
  (0 <=? score a) && (0 <? total_questions a).

(** [questions: List[Question] = Field(..., min_items=1)] *)
Definition FeedbackRequest_accepts (r : FeedbackRequest) : bool :=
  (1 <=? length (questions r))%nat
  && forallb Question_accepts (questions r)
  && UserAttempt_accepts (user_attempt r).

End Schemas.

(* ===================================================================== *)
(** ** The generative-text client (google.genai), as the service sees it  *)
(* ===================================================================== *)

Module Genai.

(** The structured response. An attribute that is missing and one that is
    [None] are both [None] here: the service treats them alike
    ([not hasattr(x, a) or not x.a]). *)
Record Part := mkPart { text : option str }.
Record Content := mkContent { parts : option (list Part) }.
Record Candidate := mkCandidate { content : option Content }.
Record GenerateContentResponse := mkResponse {
  candidates : option (list Candidate)
}.

Record GenerateContentConfig := mkConfig {
  temperature : Q;
  max_output_tokens : Z
}.

(** [client.aio.models.generate_content(model=, contents=, config=)] with
    one user turn holding one text part: the call answers with a response
    (possibly [None]) or raises. *)
Record Client := mkClient {
  generate_content :
    str -> str -> GenerateContentConfig ->
    result (option GenerateContentResponse)
}.

End Genai.

(* ===================================================================== *)
(** ** app/services/gemini_service.py                                     *)
(* ===================================================================== *)

Module GeminiService.
Import Exceptions Schemas Genai.

Section Service.
Context `{PyRepr}.

(** The entries [_get_incorrect_questions] collects:
    [{'question': ..., 'options': ...}]. *)
Record IncorrectQuestion := mkIncorrect {
  iq_question : str;
  iq_options : list str
}.

Definition _create_explanation_prompt (question_text : str) : str :=
  lit "Explica de forma clara y concisa (máximo 100 palabras) la respuesta a la siguiente pregunta de cultura general, como si fueras un profesor. Usa formato Markdown:

Pregunta: " ++ question_text.

Definition _create_congratulations_prompt : str :=
  lit "Genera una breve felicitación en formato Markdown para un estudiante que respondió correctamente todas las preguntas de un quiz de cultura general. Máximo 100 palabras. Incluye una motivación para seguir aprendiendo.".

Definition feedback_prompt_header : str :=
  lit "Eres un experto educador creando una **separata informativa** en formato Markdown para ayudar a un estudiante a repasar conceptos de cultura general.

**IMPORTANTE**: Esta separata será leída antes de que el estudiante vuelva a intentar el quiz, por lo que NO debes incluir de manera explícita o llamativa las respuestas, pero estas sí deben estar sutilmente incluidas en la separata generada.

**Preguntas que el estudiante respondió incorrectamente:**
".

Definition feedback_prompt_footer : str :=
  lit "

**Instrucciones para la separata:**
1. Crea un documento educativo tipo boletín informativo
2. Aborda los TEMAS y CONCEPTOS relacionados con las preguntas incorrectas
3. NO reveles las respuestas correctas de manera explícita o llamativa, pero estas sí deben estar sutilmente incluidas en el texto generado.
4. Proporciona contexto histórico, geográfico o cultural relevante
5. Incluye datos curiosos o información complementaria
6. Usa formato Markdown con títulos, subtítulos y listas
7. Máximo 500 palabras
8. Estilo: informativo, educativo y atractivo
9. El objetivo es que el usuario aprenda los conceptos para responder mejor en un segundo intento

Genera la separata educativa ahora:".

(** One line of the review prompt: [f"{i}. {incorrect_q['question']}\n"]. *)
Definition feedback_line (i : nat) (incorrect_q : IncorrectQuestion) : str :=
  str_of_nat i ++ lit ". " ++ iq_question incorrect_q ++ [10%N].

(** [for i, incorrect_q in enumerate(incorrect_questions, 1): prompt += ...] *)
Fixpoint feedback_lines (i : nat) (incorrect_questions : list IncorrectQuestion)
    (prompt : str) : str :=
  match incorrect_questions with
  | [] => prompt
  | incorrect_q :: rest =>
    feedback_lines (S i) rest (prompt ++ feedback_line i incorrect_q)
  end.

Definition _create_feedback_prompt
    (incorrect_questions : list IncorrectQuestion) : str :=
  let prompt := feedback_prompt_header in
  let prompt := feedback_lines 1 incorrect_questions prompt in
  prompt ++ feedback_prompt_footer.

Definition _extract_text_from_response
    (response : option GenerateContentResponse) : result str :=
  match response with
  | None => Raise (GeminiException (lit "No se recibió respuesta de Gemini"))
  | Some response =>
    match candidates response with
    | None | Some [] =>
      Raise (GeminiException
               (lit "No se encontraron candidatos en la respuesta"))
    | Some (candidate :: _) =>
      match content candidate with
      | None => Raise (GeminiException (lit "El candidato no tiene contenido"))
      | Some candidate_content =>
        match parts candidate_content with
        | None | Some [] =>
          Raise (GeminiException (lit "El contenido no tiene partes"))
        | Some (part0 :: _) =>
          match text part0 with
          | None => Raise (GeminiException (lit "El texto generado está vacío"))
          | Some t =>
            if negb (str_truthy t) || negb (str_truthy (strip t))
            then Raise (GeminiException (lit "El texto generado está vacío"))
            else Ok t
          end
        end
      end
    end
  end.

Definition _validate_feedback_input (questions : list Question)
    (user_attempt : UserAttempt) : result unit :=
  match questions with
  | [] =>
    Raise (GeminiException (lit "La lista de preguntas no puede estar vacía"))
  | _ :: _ =>
    if negb (Z.of_nat (length questions) =? total_questions user_attempt)
    then Raise (GeminiException
                  (lit "El número de preguntas no coincide con total_questions"))
    else if negb (length (answers user_attempt) =? length questions)%nat
    then Raise (GeminiException
                  (lit "El número de respuestas no coincide con el número de preguntas"))
    else Ok tt
  end.

(** [for i, question in enumerate(questions): ...]: [rest] is what is left
    of [questions] from position [i] on. *)
Fixpoint incorrect_loop (i : nat) (rest : list Question)
    (user_attempt : UserAttempt) (incorrect_questions : list IncorrectQuestion)
  : result (list IncorrectQuestion) :=
  match rest with
  | [] => Ok incorrect_questions
  | question :: rest' =>
    user_answer_idx <- index (answers user_attempt) i ;;
    let correct_answer_idx := correct_answer question in
    if negb (user_answer_idx =? correct_answer_idx)
    then incorrect_loop (S i) rest' user_attempt
           (incorrect_questions
              ++ [mkIncorrect (Schemas.question question) (options question)])
    else incorrect_loop (S i) rest' user_attempt incorrect_questions
  end.

Definition _get_incorrect_questions (questions : list Question)
    (user_attempt : UserAttempt) : result (list IncorrectQuestion) :=
  incorrect_loop 0 questions user_attempt [].

(** The three handlers every generation method ends with. *)
Definition gemini_handlers {A} (e : exn) : result A :=
  match e with
  | ClientError _ =>
    Raise (create_http_exception 400
             (lit "Error del cliente: " ++ str_of_exn e) None)
  | ServerError _ =>
    Raise (create_http_exception 502
             (lit "Error del servidor Gemini: " ++ str_of_exn e) None)
  | _ =>
    Raise (create_http_exception 500
             (lit "Error interno: " ++ str_of_exn e) None)
  end.

(** The body of [generate_explanation]'s [try]. *)
Definition generate_explanation_body (client : Client) (question_text : str)
  : result str :=
  if negb (str_truthy (strip question_text))
  then Raise (GeminiException
                (lit "El texto de la pregunta no puede estar vacío"))
  else
    let prompt := _create_explanation_prompt question_text in
    response <- generate_content client Settings.gemini_model prompt
                  (mkConfig (3 # 10) Settings.max_explanation_tokens) ;;
    explanation_text <- _extract_text_from_response response ;;
    Ok explanation_text.

Definition generate_explanation (client : Client) (question_text : str)
  : result str :=
  try_except (generate_explanation_body client question_text) gemini_handlers.

(** The prompt [generate_feedback] builds, up to the call of the model. *)
Definition feedback_prompt (questions : list Question)
    (user_attempt : UserAttempt) : result str :=
  _ <- _validate_feedback_input questions user_attempt ;;
  incorrect_questions <- _get_incorrect_questions questions user_attempt ;;
  match incorrect_questions with
  | [] => Ok _create_congratulations_prompt
  | _ :: _ => Ok (_create_feedback_prompt incorrect_questions)
  end.

Definition generate_feedback_body (client : Client)
    (questions : list Question) (user_attempt : UserAttempt) : result str :=
  prompt <- feedback_prompt questions user_attempt ;;
  response <- generate_content client Settings.gemini_model prompt
                (mkConfig (6 # 10) Settings.max_feedback_tokens) ;;
  feedback_text <- _extract_text_from_response response ;;
  Ok feedback_text.

Definition generate_feedback (client : Client) (questions : list Question)
    (user_attempt : UserAttempt) : result str :=
  try_except (generate_feedback_body client questions user_attempt)
    gemini_handlers.

(** [test_connection] answers with a [{"status", "message"}] dict and
    never raises. *)
Record ConnectionReport := mkReport {
  report_status : str;
  report_message : option str
}.

Definition test_connection_body (client : Client) : result ConnectionReport :=
  response <- generate_content client Settings.gemini_model
                (lit "Di 'Hola mundo'") (mkConfig (1 # 10) 10) ;;
  match response with
  | Some (mkResponse (Some (candidate :: _))) =>
    match content candidate with
    | None =>
      Raise (AttributeError
               (lit "'NoneType' object has no attribute 'parts'"))
    | Some c =>
      match parts c with
      | None => Raise (TypeError (lit "'NoneType' object is not subscriptable"))
      | Some [] => Raise (IndexError (lit "list index out of range"))
      | Some (part0 :: _) => Ok (mkReport (lit "success") (text part0))
      end
    end
  | _ => Ok (mkReport (lit "error") (Some (lit "No se recibió respuesta válida")))
  end.

Definition test_connection (client : Client) : result ConnectionReport :=
  try_except (test_connection_body client)
    (fun e => Ok (mkReport (lit "error") (Some (str_of_exn e)))).

End Service.
End GeminiService.

(* ===================================================================== *)
(** ** [random.sample]                                                    *)
(* ===================================================================== *)

Module Random.

(** [random.sample(population, k)]: [k] positions chosen without
    replacement. The model is CPython's pool loop,

      [for i in range(k): j = randbelow(n - i); result[i] = pool[j];
       pool[j] = pool[n - i - 1]]

    driven by a source of draws: the [i]-th draw is [rnd i], reduced below
    the bound [n - i]. *)
Fixpoint sample_loop {A} (rnd : nat -> nat) (n : nat) (pool : list A)
    (i steps : nat) : list A :=
  match steps with
  | O => []
  | S steps' =>
    let j := (rnd i mod (n - i))%nat in
    match pool !! j, pool !! (n - i - 1)%nat with
    | Some x, Some y => x :: sample_loop rnd n (<[j := y]> pool) (S i) steps'
    | _, _ => []
    end
  end.

Definition sample {A} (rnd : nat -> nat) (population : list A) (k : Z)
  : result (list A) :=
  let n := length population in
  if (k <? 0) || (Z.of_nat n <? k)
  then Raise (ValueError (lit "Sample larger than population or is negative"))
  else Ok (sample_loop rnd n population 0 (Z.to_nat k)).

End Random.

(* ===================================================================== *)
(** ** The document-store client (google.cloud.firestore)                 *)
(* ===================================================================== *)

Module Firestore.

(** A document snapshot. [to_dict] is only read on a snapshot that
    exists. *)
Record DocumentSnapshot := mkSnapshot {
  doc_id : str;
  doc_exists : bool;
  to_dict : dict
}.

(** The client: its collections (collection name, then document
    identifier, to the document's fields), an outage under which every
    request raises, and whether the installed library offers
    [Query.count]. *)
Record Client := mkClient {
  collections : gmap string (gmap str dict);
  outage : option exn;
  has_count : bool
}.

(** A query over one collection: an optional equality filter and an
    optional field projection. *)
Record Query := mkQuery {
  q_source : gmap str dict;
  q_where : option (string * value);
  q_select : option (list string)
}.

Definition collection (db : Client) (name : string) : Query :=
  mkQuery (default ∅ (collections db !! name)) None None.

(** [query.where(field, "==", v)] *)
Definition where_eq (q : Query) (field : string) (v : value) : Query :=
  mkQuery (q_source q) (Some (field, v)) (q_select q).

(** [query.select(fields)] *)
Definition select (q : Query) (fields : list string) : Query :=
  mkQuery (q_source q) (q_where q) (Some fields).

Definition matches (w : option (string * value)) (fields : dict) : Prop :=
  match w with
  | None => True
  | Some (field, v) => fields !! field = Some v
  end.

#[global] Instance matches_dec w fields : Decision (matches w fields).
Proof. destruct w as [[field v]|]; simpl; apply _. Defined.

Definition project (sel : option (list string)) (fields : dict) : dict :=
  match sel with
  | None => fields
  | Some names => filter (fun kv => kv.1 ∈ names) fields
  end.

(** The documents a query selects, before projection. *)
Definition selected (q : Query) : list (str * dict) :=
  filter (fun kv => matches (q_where q) kv.2) (map_to_list (q_source q)).

Definition request {A} (db : Client) (answer : A) : result A :=
  match outage db with
  | Some e => Raise e
  | None => Ok answer
  end.

(** [query.stream()], read to its end. *)
Definition stream (db : Client) (q : Query) : result (list DocumentSnapshot) :=
  request db
    (map (fun kv => mkSnapshot kv.1 true (project (q_select q) kv.2))
       (selected q)).

(** [collection.document(id).get()] *)
Definition document_get (db : Client) (name : string) (document_id : str)
  : result DocumentSnapshot :=
  request db
    match default ∅ (collections db !! name) !! document_id with
    | Some fields => mkSnapshot document_id true fields
    | None => mkSnapshot document_id false ∅
    end.

Record AggregationResult := mkAggregation { agg_value : Z }.

(** [query.count()]: an attribute error on a library without it. *)
Definition count (db : Client) (q : Query) : result Query :=
  if has_count db then Ok q
  else Raise (AttributeError
                (lit "'Query' object has no attribute 'count'")).

(** [aggregation_query.get()]: one result row with one aggregation. *)
Definition aggregation_get (db : Client) (q : Query)
  : result (list (list AggregationResult)) :=
  request db [[mkAggregation (Z.of_nat (length (selected q)))]].

End Firestore.

(* ===================================================================== *)
(** ** app/services/firestore_service.py                                  *)
(* ===================================================================== *)

Module FirestoreService.
Import Exceptions Firestore.

Section Service.
Context `{PyRepr}.

Definition collection_name : string := "questions".

(** The two handlers every method of the service ends with. *)
Definition firestore_handlers {A} (e : exn) : result A :=
  match e with
  | GoogleCloudError _ =>
    Raise (create_http_exception 500
             (lit "Error de base de datos: " ++ str_of_exn e) None)
  | _ =>
    Raise (create_http_exception 500
             (lit "Error interno: " ++ str_of_exn e) None)
  end.

Definition get_question_by_id_body (db : Client) (question_id : str)
  : result dict :=
  doc <- document_get db collection_name question_id ;;
  if negb (doc_exists doc)
  then Raise (create_http_exception 404 (lit "Pregunta no encontrada") None)
  else
    let question_data := to_dict doc in
    Ok question_data.

Definition get_question_by_id (db : Client) (question_id : str)
  : result dict :=
  try_except (get_question_by_id_body db question_id) firestore_handlers.

(** [if subject: query = query.where("subject", "==", subject)]: a
    subject that is [None] or empty adds no filter. *)
Definition subject_query (db : Client) (subject : option str) : Query :=
  let query := collection db collection_name in
  match subject with
  | Some s => if str_truthy s then where_eq query "subject" (VStr s) else query
  | None => query
  end.

(** [for doc in questions_query.stream(): if doc.exists: ...] *)
Fixpoint collect_questions (docs : list DocumentSnapshot)
    (all_questions : list dict) : list dict :=
  match docs with
  | [] => all_questions
  | doc :: rest =>
    if doc_exists doc
    then
      let question_data := to_dict doc in
      let question_data := <["id" := VStr (doc_id doc)]> question_data in
      collect_questions rest (all_questions ++ [question_data])
    else collect_questions rest all_questions
  end.

Definition get_random_questions_body (db : Client) (rnd : nat -> nat)
    (count : Z) (subject : option str) : result (list dict) :=
  let questions_query := subject_query db subject in
  docs <- stream db questions_query ;;
  let all_questions := collect_questions docs [] in
  match all_questions with
  | [] => Ok []
  | _ :: _ =>
    let actual_count := Z.min count (Z.of_nat (length all_questions)) in
    selected_questions <- Random.sample rnd all_questions actual_count ;;
    Ok selected_questions
  end.

Definition get_random_questions (db : Client) (rnd : nat -> nat)
    (count : Z) (subject : option str) : result (list dict) :=
  try_except (get_random_questions_body db rnd count subject)
    firestore_handlers.

(** [for doc in docs: if doc.exists: data = doc.to_dict(); if 'subject' in
    data and data['subject']: subjects.add(data['subject'])] *)
Fixpoint collect_subjects (docs : list DocumentSnapshot)
    (subjects : gset value) : result (gset value) :=
  match docs with
  | [] => Ok subjects
  | doc :: rest =>
    if doc_exists doc
    then
      let data := to_dict doc in
      match data !! "subject" with
      | Some v =>
        if truthy v
        then subjects' <- set_add v subjects ;; collect_subjects rest subjects'
        else collect_subjects rest subjects
      | None => collect_subjects rest subjects
      end
    else collect_subjects rest subjects
  end.

Definition get_available_subjects_body (db : Client) : result (list value) :=
  docs <- stream db (select (collection db collection_name) ["subject"]) ;;
  subjects <- collect_subjects docs ∅ ;;
  subjects_list <- sorted (elements subjects) ;;
  Ok subjects_list.

Definition get_available_subjects (db : Client) : result (list value) :=
  try_except (get_available_subjects_body db) firestore_handlers.

(** The aggregation path: [query.count().get()[0][0].value]. *)
Definition count_by_aggregation (db : Client) (query : Query) : result Z :=
  agg_query <- count db query ;;
  results <- aggregation_get db agg_query ;;
  row <- index results 0 ;;
  cell <- index row 0 ;;
  Ok (agg_value cell).

(** The fallback: [len(list(query.select([]).stream()))]. *)
Definition count_manually (db : Client) (query : Query) : result Z :=
  docs <- stream db (select query []) ;;
  Ok (Z.of_nat (length docs)).

Definition get_questions_count_body (db : Client) (subject : option str)
  : result Z :=
  let query := subject_query db subject in
  try_except (count_by_aggregation db query)
    (fun e =>
       match e with
       | AttributeError _ => count_manually db query
       | _ => Raise e
       end).

Definition get_questions_count (db : Client) (subject : option str)
  : result Z :=
  try_except (get_questions_count_body db subject) firestore_handlers.

End Service.
End FirestoreService.

(* ===================================================================== *)
(** ** app/api/v1/endpoints: the status a request is answered with        *)
(* ===================================================================== *)

Module Endpoints.
Import Schemas.

Section Handlers.
Context `{PyRepr}.

(** The framework answers an [HTTPException] with its status code, any
    other exception that leaves the handler with 500, and a value with
    200. *)
Definition response_status {A} (r : result A) : Z :=
  match r with
  | Ok _ => 200
  | Raise (HTTPException sc _) => sc
  | Raise _ => 500
  end.

(** [POST /explanations/generate] *)
Definition generate_explanation (client : Genai.Client)
    (request : ExplanationRequest) : result str :=
  GeminiService.generate_explanation client (question_text request).

(** [sum(1 for i, q in enumerate(request.questions)
         if request.user_attempt.answers[i] != q.correct_answer)] *)
Fixpoint incorrect_count (i : nat) (rest : list Question) (answers : list Z)
  : result Z :=
  match rest with
  | [] => Ok 0
  | q :: rest' =>
    a <- index answers i ;;
    n <- incorrect_count (S i) rest' answers ;;
    Ok (if negb (a =? correct_answer q) then 1 + n else n)
  end.

(** [POST /feedback/generate] *)
Definition generate_personalized_feedback (client : Genai.Client)
    (request : FeedbackRequest) : result str :=
  _ <- incorrect_count 0 (questions request)
         (answers (user_attempt request)) ;;
  GeminiService.generate_feedback client (questions request)
    (user_attempt request).

(** The status of the answer to a request body, validation included. *)
Definition explanation_status (client : Genai.Client)
    (request : ExplanationRequest) : Z :=
  if ExplanationRequest_accepts request
  then response_status (generate_explanation client request)
  else 422.

Definition feedback_status (client : Genai.Client)
    (request : FeedbackRequest) : Z :=
  if FeedbackRequest_accepts request
  then response_status (generate_personalized_feedback client request)
  else 422.

End Handlers.
End Endpoints.

(** A client error is a status in the 4xx range. *)
Definition is_client_error (status : Z) : Prop := 400 <= status < 500.

(** A [str] is blank when it is empty or holds only whitespace. *)
Definition blank (s : str) : Prop := Forall (fun c => is_space c = true) s.

(** What the claims speak of, stated apart from the code. *)

(** The text a response holds: the first content part of the first
    candidate, when every link of that chain is present. *)
Definition first_text (response : option Genai.GenerateContentResponse)
  : option str :=
  r ← response;
  cs ← Genai.candidates r;
  c ← head cs;
  ct ← Genai.content c;
  ps ← Genai.parts ct;
  p ← head ps;
  Genai.text p.

(** The questions answered incorrectly, in the order of the quiz: those
    whose selected index differs from the correct one. *)
Fixpoint incorrectly_answered (qs : list Schemas.Question) (ans : list Z)
  : list Schemas.Question :=
  match qs, ans with
  | q :: qs', a :: ans' =>
    if decide (a = Schemas.correct_answer q)
    then incorrectly_answered qs' ans'
    else q :: incorrectly_answered qs' ans'
  | _, _ => []
  end.

(** Every selected index is the correct one. *)
Definition all_correct (qs : list Schemas.Question) (ans : list Z) : Prop :=
  Forall2 (fun q a => a = Schemas.correct_answer q) qs ans.

(** The numbered lines of a review prompt, one per question, from 1. *)
Definition numbered_lines (qs : list Schemas.Question) : str :=
  concat (imap (fun i q =>
                  str_of_nat (S i) ++ lit ". " ++ Schemas.question q ++ [10%N])
            qs).

(** The stored question bank: the documents of the ["questions"]
    collection, by identifier. *)
Definition stored_questions (db : Firestore.Client) : gmap str dict :=
  default ∅ (Firestore.collections db !! "questions").

(** A stored question matches the optional subject filter when no subject
    is asked for ([None], or the empty string) or its ["subject"] field is
    the subject asked for. *)
Definition matches_subject (subject : option str) (fields : dict) : Prop :=
  match subject with
  | Some (c :: s) => fields !! "subject" = Some (VStr (c :: s))
  | _ => True
  end.

#[global] Instance matches_subject_dec subject fields :
  Decision (matches_subject subject fields).
Proof. destruct subject as [[|c s]|]; simpl; apply _. Defined.

(** The bank of stored questions matching the filter. *)
Definition bank (db : Firestore.Client) (subject : option str)
  : list (str * dict) :=
  filter (fun kv => matches_subject subject kv.2)
    (map_to_list (stored_questions db)).

(** A stored document as the service hands it out: its fields, with its
    identifier under ["id"]. *)
Definition as_question (kv : str * dict) : dict :=
  <["id" := VStr kv.1]> kv.2.

(** Every stored subject is a text or null, as the schema has it. *)
Definition subjects_are_text (db : Firestore.Client) : Prop :=
  forall (document_id : str) (fields : dict) (v : value),
    stored_questions db !! document_id = Some fields ->
    fields !! "subject" = Some v ->
    v = VNone \/ exists s, v = VStr s.

(** A subject label occurs in the bank when some stored question holds it
    as its ["subject"]. *)
Definition subject_occurs (db : Firestore.Client) (s : str) : Prop :=
  exists (document_id : str) (fields : dict),
    stored_questions db !! document_id = Some fields
    /\ fields !! "subject" = Some (VStr s).

(** A rendering of the detail dict for the examples below; it is exact on
    messages that need no escaping. *)
Definition plain_repr : PyRepr :=
  fun d => lit "{'message': '" ++ detail_message d ++ lit "'}".

(** The entry the diff records for a question. *)
Definition entry_of (q : Schemas.Question) : GeminiService.IncorrectQuestion :=
  GeminiService.mkIncorrect (Schemas.question q) (Schemas.options q).

(** The status the generation methods give a collaborator's error. *)
Definition gemini_status (e : exn) : Z :=
  match e with
  | ClientError _ => 400
  | ServerError _ => 502
  | _ => 500
  end.

(** Example inputs. *)
Definition whitespace_text : str := lit "   ".

Definition silent_client : Genai.Client :=
  Genai.mkClient (fun _ _ _ => Ok None).

Definition failing_client : Genai.Client :=
  Genai.mkClient (fun _ _ _ => Raise (ServerError (lit "503 UNAVAILABLE"))).

Definition one_question : list Schemas.Question :=
  [Schemas.mkQuestion 1 (lit "2+2?") [lit "3"; lit "4"] 1 None].

Definition two_answers : Schemas.UserAttempt :=
  Schemas.mkUserAttempt 0 1 [0; 1].

Definition wide_index_question : Schemas.Question :=
  Schemas.mkQuestion 1 (lit "2+2?") [lit "3"; lit "4"] 5 None.

(** An example bank: three stored questions, two subjects. *)
Definition example_bank : Firestore.Client :=
  Firestore.mkClient
    {[ "questions" :=
         {[ lit "q1" := {[ "question" := VStr (lit "2+2?");
                           "subject" := VStr (lit "Aritmética") ]};
            lit "q2" := {[ "question" := VStr (lit "Capital de Francia?");
                           "subject" := VStr (lit "Geografía") ]};
            lit "q3" := {[ "question" := VStr (lit "3+3?");
                           "subject" := VStr (lit "Aritmética") ]} ]} ]}
    None true.

(** The same bank behind a library without count aggregation. *)
Definition example_bank_no_count : Firestore.Client :=
  Firestore.mkClient (Firestore.collections example_bank) None false.

(* ===================================================================== *)
(** ** app/api/v1/endpoints/questions.py                                  *)
(* ===================================================================== *)

Module QuestionsEndpoints.

Section Handlers.
Context `{PyRepr}.

(** [count: int = Query(5, ge=1, le=settings.max_questions_per_request)] *)
Definition count_accepts (count : Z) : bool :=
  (1 <=? count) && (count <=? Settings.max_questions_per_request).

(** [GET /questions/]: a missing [count] is 5; a [count] outside the
    bounds is answered with 422 before the handler runs ([None] here). *)
Definition get_random_questions (db : Firestore.Client) (rnd : nat -> nat)
    (count : option Z) (subject : option str)
  : option (result (list dict)) :=
  let count := default 5 count in
  if count_accepts count
  then Some (FirestoreService.get_random_questions db rnd count subject)
  else None.

(** The body [GET /questions/count/total] answers with:
    [{"total_questions": count, "subject": subject,
      "filtered": subject is not None}]. *)
Record CountReport := mkCountReport {
  total_questions : Z;
  subject : option str;
  filtered : bool
}.

Definition get_questions_count (db : Firestore.Client)
    (subject : option str) : result CountReport :=
  count <- FirestoreService.get_questions_count db subject ;;
  Ok (mkCountReport count subject
        (match subject with Some _ => true | None => false end)).

End Handlers.
End QuestionsEndpoints.

(** What is sent to the model about a quiz: the question texts and the
    correct-answer indices. *)
Definition quiz_view (qs : list Schemas.Question) : list (str * Z) :=
  map (fun q => (Schemas.question q, Schemas.correct_answer q)) qs.

(** A response that lets the connectivity test read a message: a first
    candidate with a content whose parts are not empty. *)
Definition has_first_part (response : option Genai.GenerateContentResponse)
  : Prop :=
  exists r c cs ct p ps,
    response = Some r
    /\ Genai.candidates r = Some (c :: cs)
    /\ Genai.content c = Some ct
    /\ Genai.parts ct = Some (p :: ps).

(** A stored question whose subject is a non-empty list. *)
Definition list_subject_stored (db : Firestore.Client) : Prop :=
  exists (document_id : str) (fields : dict) (x : str) (l : list str),
    stored_questions db !! document_id = Some fields
    /\ fields !! "subject" = Some (VList (x :: l)).

(** A bank with a question filed under a list of subjects. *)
Definition list_subject_bank : Firestore.Client :=
  Firestore.mkClient
    {[ "questions" :=
         {[ lit "q1" := {[ "question" := VStr (lit "2+2?");
                           "subject" := VList [lit "Aritmética"] ]} ]} ]}
    None true.

(** A client whose model answers every prompt with one text. *)
Definition echo_client (t : str) : Genai.Client :=
  Genai.mkClient
    (fun _ _ _ =>
       Ok (Some (Genai.mkResponse
                   (Some [Genai.mkCandidate
                            (Some (Genai.mkContent
                                     (Some [Genai.mkPart (Some t)])))])))).

(* ===================================================================== *)
(** ** Strings                                                            *)
(* ===================================================================== *)

Lemma lstrip_nil_blank (s : str) : lstrip s = [] <-> blank s.
Proof.
  unfold blank. induction s as [|c s IH]; simpl.
  - split; [constructor | reflexivity].
  - destruct (is_space c) eqn:Hc.
    + rewrite IH. split; intros Hs.
      * by constructor.
      * by inversion Hs.
    + split; [discriminate |].
      intros Hs. inversion Hs as [|? ? Hc' _]. congruence.
Qed.

Lemma lstrip_blank_nil (s : str) : blank (lstrip s) -> lstrip s = [].
Proof.
  unfold blank. induction s as [|c s IH]; simpl; [done |].
  destruct (is_space c) eqn:Hc; [done |].
  intros Hs. inversion Hs. congruence.
Qed.

Lemma blank_rev (s : str) : blank (rev s) <-> blank s.
Proof.
  unfold blank. rewrite !List.Forall_forall.
  split; intros Hs c Hin; apply Hs; [by apply -> in_rev | by apply in_rev].
Qed.

Lemma rstrip_nil_blank (s : str) : rstrip s = [] <-> blank s.
Proof.
  unfold rstrip. rewrite <- blank_rev, <- lstrip_nil_blank.
  split; intros Hs.
  - by rewrite <- (rev_involutive (lstrip (rev s))), Hs.
  - by rewrite Hs.
Qed.

Lemma strip_nil_blank (s : str) : strip s = [] <-> blank s.
Proof.
  unfold strip. rewrite rstrip_nil_blank. split; intros Hs.
  - by apply lstrip_nil_blank, lstrip_blank_nil.
  - apply lstrip_nil_blank in Hs. rewrite Hs. constructor.
Qed.

Lemma strip_falsy_blank (s : str) : str_truthy (strip s) = false <-> blank s.
Proof.
  rewrite <- strip_nil_blank. by destruct (strip s).
Qed.

Lemma strip_truthy_not_blank (s : str) :
  str_truthy (strip s) = true <-> ~ blank s.
Proof.
  rewrite <- strip_falsy_blank. by destruct (str_truthy (strip s)).
Qed.

Lemma empty_blank : blank [].
Proof. constructor. Qed.

(* ===================================================================== *)
(** ** Text extraction                                                    *)
(* ===================================================================== *)

Section Extraction.
Import Genai GeminiService.

(** The outcome of extraction, case by case on the text the response
    holds. *)
Lemma extract_cases (response : option GenerateContentResponse) :
  match first_text response with
  | Some t =>
    (~ blank t /\ _extract_text_from_response response = Ok t)
    \/ (blank t /\
        exists m, _extract_text_from_response response
                  = Raise (GeminiException m))
  | None =>
    exists m, _extract_text_from_response response = Raise (GeminiException m)
  end.
Proof.
  destruct response as [[cs]|]; simpl; [|eauto].
  destruct cs as [[|[ct] ?]|]; simpl; [eauto | | eauto].
  destruct ct as [[ps]|]; simpl; [|eauto].
  destruct ps as [[|[t] ?]|]; simpl; [eauto | | eauto].
  destruct t as [t|]; simpl; [|eauto].
  destruct (str_truthy t) eqn:Ht; simpl.
  - destruct (str_truthy (strip t)) eqn:Hs; simpl.
    + left. split; [by apply strip_truthy_not_blank | done].
    + right. split; [by apply strip_falsy_blank | eauto].
  - right. destruct t; [|done]. split; [apply empty_blank | eauto].
Qed.

(** C5: text extraction returns the text of the first content part of the
    first candidate exactly when that chain is present and the text is not
    blank; it raises a [GeminiException] exactly when it is not; and it
    raises nothing else. *)
Theorem extract_text_from_response_spec
    (response : option GenerateContentResponse) :
  (forall t, _extract_text_from_response response = Ok t
             <-> first_text response = Some t /\ ~ blank t)
  /\ ((exists m, _extract_text_from_response response
                 = Raise (GeminiException m))
      <-> ~ exists t, first_text response = Some t /\ ~ blank t)
  /\ (forall e, _extract_text_from_response response = Raise e
                -> exists m, e = GeminiException m).
Proof.
  pose proof (extract_cases response) as Hc.
  destruct (first_text response) as [t|].
  - destruct Hc as [[Hnb Hok]|[Hb [m Hr]]].
    + rewrite Hok. split; [|split].
      * intros t'. split; [intros [= <-]; done | intros [[= <-] _]; done].
      * split; [intros [m [=]] | intros []; eauto].
      * intros e [=].
    + rewrite Hr. split; [|split].
      * intros t'. split; [intros [=] | intros [[= <-] Hnb]; done].
      * split; [intros _ (t' & [= <-] & Hnb); done | eauto].
      * intros e [= <-]. eauto.
  - destruct Hc as [m Hr]. rewrite Hr. split; [|split].
    + intros t'. split; [intros [=] | intros [[=] _]].
    + split; [intros _ (t' & [=] & _) | eauto].
    + intros e [= <-]. eauto.
Qed.

End Extraction.

(* ===================================================================== *)
(** ** The diff of answers against correct answers, and the prompts       *)
(* ===================================================================== *)

Section Feedback.
Import Schemas GeminiService.

Lemma validate_ok_inv (qs : list Question) (ua : UserAttempt) :
  _validate_feedback_input qs ua = Ok tt ->
  qs <> [] /\ Z.of_nat (length qs) = total_questions ua
  /\ length (answers ua) = length qs.
Proof.
  unfold _validate_feedback_input. destruct qs as [|q qs]; [done |].
  destruct (Z.eqb _ _) eqn:Ht; cbn [negb]; [|done].
  destruct (Nat.eqb _ _) eqn:Hl; cbn [negb]; [|done].
  intros _. apply Z.eqb_eq in Ht. apply Nat.eqb_eq in Hl.
  split; [discriminate | split; [exact Ht | exact Hl]].
Qed.

Lemma validate_raises_domain (qs : list Question) (ua : UserAttempt) :
  length (answers ua) <> length qs ->
  exists m, _validate_feedback_input qs ua = Raise (GeminiException m).
Proof.
  intros Hne. unfold _validate_feedback_input.
  destruct qs as [|q qs]; [eauto |].
  destruct (Z.eqb _ _); cbn [negb]; [|eauto].
  destruct (Nat.eqb _ _) eqn:Hl; cbn [negb]; [|eauto].
  by apply Nat.eqb_eq in Hl.
Qed.

(** The loop, with every [answers[i]] in bounds: it appends the
    incorrectly answered questions of what is left. *)
Lemma incorrect_loop_in_bounds (rest : list Question) :
  forall (i : nat) (ua : UserAttempt) (acc : list IncorrectQuestion),
    (i + length rest <= length (answers ua))%nat ->
    incorrect_loop i rest ua acc
    = Ok (acc ++ map entry_of
                   (incorrectly_answered rest (drop i (answers ua)))).
Proof.
  induction rest as [|q rest IH]; intros i ua acc Hlen; simpl.
  - by rewrite app_nil_r.
  - simpl in Hlen. unfold index.
    destruct (answers ua !! i) as [a|] eqn:Ha.
    2: { apply lookup_ge_None in Ha. lia. }
    simpl. rewrite (drop_S _ _ _ Ha).
    destruct (decide (a = correct_answer q)) as [->|Hne].
    + rewrite Z.eqb_refl. simpl. apply IH. lia.
    + apply Z.eqb_neq in Hne. rewrite Hne. simpl.
      rewrite IH by lia. by rewrite <- app_assoc.
Qed.

Lemma get_incorrect_questions_spec (qs : list Question) (ua : UserAttempt) :
  length (answers ua) = length qs ->
  _get_incorrect_questions qs ua
  = Ok (map entry_of (incorrectly_answered qs (answers ua))).
Proof.
  intros Hlen. unfold _get_incorrect_questions.
  rewrite incorrect_loop_in_bounds by (simpl; lia). by rewrite drop_0.
Qed.

(** C9: once the answers list is as long as the questions list, every
    [answers[i]] the diff reads (one per question position [i]) is in
    bounds, and the diff returns a list. *)
Theorem get_incorrect_questions_total (qs : list Question) (ua : UserAttempt) :
  length (answers ua) = length qs ->
  (forall i, (i < length qs)%nat -> exists a, index (answers ua) i = Ok a)
  /\ exists l, _get_incorrect_questions qs ua = Ok l.
Proof.
  intros Hlen. split.
  - intros i Hi. unfold index.
    destruct (answers ua !! i) as [a|] eqn:Ha; [eauto |].
    apply lookup_ge_None in Ha. lia.
  - rewrite get_incorrect_questions_spec by done. eauto.
Qed.

Lemma get_incorrect_questions_total_witness :
  let qs := [mkQuestion 1 (lit "2+2?") [lit "3"; lit "4"] 1 None;
             mkQuestion 2 (lit "3+3?") [lit "6"; lit "7"] 0 None] in
  let ua := mkUserAttempt 1 2 [1; 1] in
  (forall i, (i < length qs)%nat -> exists a, index (answers ua) i = Ok a)
  /\ exists l, _get_incorrect_questions qs ua = Ok l.
Proof.
  intros qs ua. apply (get_incorrect_questions_total qs ua). reflexivity.
Defined.

(** The precondition is what validation establishes. *)
Lemma validate_then_diff_total (qs : list Question) (ua : UserAttempt) :
  _validate_feedback_input qs ua = Ok tt ->
  exists l, _get_incorrect_questions qs ua = Ok l.
Proof.
  intros Hv. apply validate_ok_inv in Hv as (_ & _ & Hlen).
  rewrite get_incorrect_questions_spec by done. eauto.
Qed.

Lemma incorrectly_answered_nil (qs : list Question) :
  forall ans : list Z,
    length ans = length qs ->
    incorrectly_answered qs ans = [] <-> all_correct qs ans.
Proof.
  unfold all_correct.
  induction qs as [|q qs IH]; intros [|a ans] Hlen; simpl in *; try done.
  destruct (decide (a = correct_answer q)) as [->|Hne].
  - rewrite IH by lia. split; intros Hs.
    + by constructor.
    + by inversion Hs.
  - split; [done |]. intros Hs. by inversion Hs.
Qed.

Lemma incorrectly_answered_sublist (qs : list Question) :
  forall ans : list Z, sublist (incorrectly_answered qs ans) qs.
Proof.
  induction qs as [|q qs IH]; intros [|a ans]; simpl;
    try apply sublist_nil_l.
  destruct (decide (a = correct_answer q)).
  - by apply sublist_cons.
  - by apply sublist_skip.
Qed.

Lemma feedback_lines_concat (l : list Question) :
  forall (i : nat) (prompt : str),
    feedback_lines i (map entry_of l) prompt
    = prompt
      ++ concat (imap (fun k q =>
                         str_of_nat (i + k) ++ lit ". " ++ question q
                         ++ [10%N]) l).
Proof.
  induction l as [|q l IH]; intros i prompt; simpl.
  - by rewrite app_nil_r.
  - rewrite IH. cbn [imap concat]. rewrite <- (app_assoc prompt).
    f_equal. f_equal.
    + unfold feedback_line. by rewrite Nat.add_0_r.
    + f_equal. apply imap_ext. intros k x _. unfold compose.
      by rewrite Nat.add_succ_r.
Qed.

Lemma create_feedback_prompt_lists (l : list Question) :
  _create_feedback_prompt (map entry_of l)
  = feedback_prompt_header ++ numbered_lines l ++ feedback_prompt_footer.
Proof.
  unfold _create_feedback_prompt, numbered_lines.
  by rewrite feedback_lines_concat, <- app_assoc.
Qed.

Lemma header_head : exists tl, feedback_prompt_header = 69%N :: tl.
Proof. eexists. vm_compute. reflexivity. Qed.

Lemma congratulations_head :
  exists tl, _create_congratulations_prompt = 71%N :: tl.
Proof. eexists. vm_compute. reflexivity. Qed.

Lemma review_is_not_congratulations (body : str) :
  feedback_prompt_header ++ body <> _create_congratulations_prompt.
Proof.
  destruct header_head as [tl ->]. destruct congratulations_head as [tl' ->].
  simpl. intros [=].
Qed.

(** C4: on a valid (length-consistent) input, the prompt is the
    congratulations prompt exactly when every selected index is the
    correct one; otherwise it is the review prompt, whose numbered list
    holds the incorrectly answered questions, in their original order. *)
Theorem feedback_prompt_spec (qs : list Question) (ua : UserAttempt) :
  _validate_feedback_input qs ua = Ok tt ->
  exists prompt,
    feedback_prompt qs ua = Ok prompt
    /\ (prompt = _create_congratulations_prompt
        <-> all_correct qs (answers ua))
    /\ (~ all_correct qs (answers ua) ->
        prompt = feedback_prompt_header
                 ++ numbered_lines (incorrectly_answered qs (answers ua))
                 ++ feedback_prompt_footer).
Proof.
  intros Hv. unfold feedback_prompt. rewrite Hv. simpl.
  apply validate_ok_inv in Hv as (_ & _ & Hlen).
  rewrite get_incorrect_questions_spec by done. simpl.
  pose proof (incorrectly_answered_nil qs (answers ua) Hlen) as Hnil.
  pose proof (create_feedback_prompt_lists
                (incorrectly_answered qs (answers ua))) as Hp.
  destruct (incorrectly_answered qs (answers ua)) as [|w ws] eqn:Hw.
  - simpl. eexists. split; [done |]. split.
    + split; [intros _; by apply Hnil | done].
    + intros Hn. destruct Hn. by apply Hnil.
  - simpl in *. eexists. split; [done |]. rewrite Hp. split.
    + split.
      * intros Heq. by apply review_is_not_congratulations in Heq.
      * intros Hall. apply Hnil in Hall. done.
    + done.
Qed.

Lemma feedback_prompt_spec_witness :
  let qs := [mkQuestion 1 (lit "2+2?") [lit "3"; lit "4"] 1 None;
             mkQuestion 2 (lit "3+3?") [lit "6"; lit "7"] 0 None] in
  let ua := mkUserAttempt 1 2 [1; 1] in
  exists prompt,
    feedback_prompt qs ua = Ok prompt
    /\ (prompt = _create_congratulations_prompt
        <-> all_correct qs (answers ua))
    /\ (~ all_correct qs (answers ua) ->
        prompt = feedback_prompt_header
                 ++ numbered_lines (incorrectly_answered qs (answers ua))
                 ++ feedback_prompt_footer).
Proof.
  intros qs ua. apply (feedback_prompt_spec qs ua). reflexivity.
Defined.

End Feedback.

(* ===================================================================== *)
(** ** Validation errors and collaborator errors                          *)
(* ===================================================================== *)

Section Errors.
Import Schemas Genai GeminiService.
Context `{PyRepr}.

Lemma gemini_handlers_status {A} (e : exn) :
  exists message,
    gemini_handlers (A := A) e
    = Raise (HTTPException (gemini_status e) (mkDetail message None)).
Proof. destruct e; simpl; eauto. Qed.

Lemma explanation_blank (client : Client) (text : str) :
  blank text ->
  exists m, generate_explanation_body client text = Raise (GeminiException m).
Proof.
  intros Hb. unfold generate_explanation_body.
  apply strip_falsy_blank in Hb. rewrite Hb. simpl. eauto.
Qed.

Lemma feedback_mismatch (client : Client) (qs : list Question)
    (ua : UserAttempt) :
  length (answers ua) <> length qs ->
  exists m, generate_feedback_body client qs ua = Raise (GeminiException m).
Proof.
  intros Hne. unfold generate_feedback_body, feedback_prompt.
  destruct (validate_raises_domain qs ua Hne) as [m ->]. simpl. eauto.
Qed.

Lemma incorrect_count_outcome (rest : list Question) (ans : list Z) :
  forall i,
    (exists n, Endpoints.incorrect_count i rest ans = Ok n)
    \/ (exists m, Endpoints.incorrect_count i rest ans = Raise (IndexError m)).
Proof.
  induction rest as [|q rest IH]; intros i; simpl; [eauto |].
  unfold index. destruct (ans !! i); simpl; [|eauto].
  destruct (IH (S i)) as [[n ->]|[m ->]]; simpl; eauto.
Qed.

(** C1, as the code has it: a blank explanation text and a feedback
    request whose answers and questions differ in number each make the
    service raise a domain exception ([GeminiException]) inside its [try];
    the catch-all handler turns it into an HTTP exception of status 500,
    and a request that passed request validation is answered with 500.
    (The empty explanation text does not pass it: min_length=1 answers it
    with 422 before the service is called.) *)
Theorem validation_errors_surface_as_500 :
  (forall (client : Client) (text : str),
      blank text ->
      (exists m, generate_explanation_body client text
                 = Raise (GeminiException m))
      /\ exists message,
          generate_explanation client text
          = Raise (HTTPException 500 (mkDetail message None)))
  /\ (forall (client : Client) (qs : list Question) (ua : UserAttempt),
         length (answers ua) <> length qs ->
         (exists m, generate_feedback_body client qs ua
                    = Raise (GeminiException m))
         /\ exists message,
             generate_feedback client qs ua
             = Raise (HTTPException 500 (mkDetail message None)))
  /\ (forall (client : Client) (request : ExplanationRequest),
         blank (question_text request) ->
         ExplanationRequest_accepts request = true ->
         Endpoints.explanation_status client request = 500)
  /\ (forall (client : Client) (request : FeedbackRequest),
         length (answers (user_attempt request))
         <> length (questions request) ->
         FeedbackRequest_accepts request = true ->
         Endpoints.feedback_status client request = 500)
  /\ (forall client : Client,
         Endpoints.explanation_status client (mkExplanationRequest []) = 422).
Proof.
  assert (Hexp : forall (client : Client) (text : str),
             blank text ->
             exists message,
               generate_explanation client text
               = Raise (HTTPException 500 (mkDetail message None))).
  { intros client text Hb. unfold generate_explanation.
    destruct (explanation_blank client text Hb) as [m ->]. simpl. eauto. }
  assert (Hfb : forall (client : Client) (qs : list Question)
                  (ua : UserAttempt),
             length (answers ua) <> length qs ->
             exists message,
               generate_feedback client qs ua
               = Raise (HTTPException 500 (mkDetail message None))).
  { intros client qs ua Hne. unfold generate_feedback.
    destruct (feedback_mismatch client qs ua Hne) as [m ->]. simpl. eauto. }
  repeat split.
  - by apply explanation_blank.
  - by apply Hexp.
  - by apply feedback_mismatch.
  - by apply Hfb.
  - intros client request Hb Hacc. unfold Endpoints.explanation_status.
    rewrite Hacc. unfold Endpoints.generate_explanation.
    by destruct (Hexp client _ Hb) as [message ->].
  - intros client request Hne Hacc. unfold Endpoints.feedback_status.
    rewrite Hacc. unfold Endpoints.generate_personalized_feedback.
    destruct (incorrect_count_outcome (questions request)
                (answers (user_attempt request)) 0) as [[n ->]|[m ->]];
      simpl; [|done].
    by destruct (Hfb client _ _ Hne) as [message ->].
Qed.

End Errors.

Lemma validation_errors_surface_as_500_witness :
  (exists message,
      @GeminiService.generate_explanation plain_repr silent_client
        whitespace_text
      = Raise (HTTPException 500 (mkDetail message None)))
  /\ (exists message,
         @GeminiService.generate_feedback plain_repr silent_client
           one_question two_answers
         = Raise (HTTPException 500 (mkDetail message None))).
Proof.
  destruct (@validation_errors_surface_as_500 plain_repr) as (He & Hf & _).
  split.
  - apply (He silent_client whitespace_text).
    unfold blank. repeat constructor.
  - apply (Hf silent_client one_question two_answers).
    simpl. lia.
Defined.

(** C1 as stated fails: a whitespace-only explanation text, and a
    feedback request with two answers for one question, both end in an
    HTTP exception of status 500, which is no client error. *)
Lemma validation_error_is_not_client_error :
  blank whitespace_text
  /\ length (Schemas.answers two_answers) <> length one_question
  /\ @GeminiService.generate_explanation plain_repr silent_client
       whitespace_text
     = Raise (HTTPException 500
                (mkDetail
                   (lit "Error interno: El texto de la pregunta no puede estar vacío")
                   None))
  /\ @GeminiService.generate_feedback plain_repr silent_client
       one_question two_answers
     = Raise (HTTPException 500
                (mkDetail
                   (lit "Error interno: El número de respuestas no coincide con el número de preguntas")
                   None))
  /\ ~ is_client_error 500.
Proof.
  split; [unfold blank; repeat constructor |].
  split; [simpl; lia |].
  split; [vm_compute; reflexivity |].
  split; [vm_compute; reflexivity |].
  unfold is_client_error. lia.
Qed.

(* ===================================================================== *)
(** ** Request validation of a question                                   *)
(* ===================================================================== *)

Section Validation.
Import Schemas.

(** C3, as the code has it: an accepted question has at least two options
    and a correct-answer index that is not negative. Nothing bounds the
    index by the number of options. *)
Theorem question_accepts_bounds (q : Question) :
  Question_accepts q = true ->
  0 <= correct_answer q /\ (2 <= length (options q))%nat.
Proof.
  unfold Question_accepts. intros Hacc.
  apply andb_true_iff in Hacc as [Hopt Hidx].
  apply Nat.leb_le in Hopt. apply Z.leb_le in Hidx. done.
Qed.

Lemma question_accepts_bounds_witness :
  0 <= correct_answer wide_index_question
  /\ (2 <= length (options wide_index_question))%nat.
Proof.
  apply (question_accepts_bounds wide_index_question). reflexivity.
Defined.

(** C3 as stated fails: a question with two options and correct-answer
    index 5 is accepted. *)
Lemma question_accepts_index_out_of_range :
  Question_accepts wide_index_question = true
  /\ ~ (0 <= correct_answer wide_index_question
        < Z.of_nat (length (options wide_index_question))).
Proof.
  split; [reflexivity |]. simpl. lia.
Qed.

End Validation.

(* ===================================================================== *)
(** ** Sampling without replacement                                       *)
(* ===================================================================== *)

Section Sampling.
Context {A : Type}.

(** Taking the element at [j] out of a prefix and moving the last element
    of the prefix into its place. *)
Lemma insert_last_Permutation (l : list A) :
  forall (j : nat) (x y : A),
    l !! j = Some x -> l ++ [y] ≡ₚ x :: <[j := y]> l.
Proof.
  induction l as [|a l IH]; intros [|j] x y Hj; simpl in *; try done.
  - injection Hj as ->. constructor. symmetry. apply Permutation_cons_append.
  - rewrite (IH j x y Hj). apply perm_swap.
Qed.

Lemma swap_remove_Permutation (l : list A) (m j : nat) (x y : A) :
  l !! j = Some x -> l !! m = Some y -> (j <= m)%nat ->
  take (S m) l ≡ₚ x :: take m (<[j := y]> l).
Proof.
  intros Hj Hm Hle. rewrite (take_S_r _ _ _ Hm).
  destruct (decide (j = m)) as [->|Hne].
  - rewrite take_insert_ge by lia. replace x with y by congruence.
    symmetry. apply Permutation_cons_append.
  - rewrite take_insert_lt by lia.
    apply insert_last_Permutation. rewrite lookup_take_lt by lia. done.
Qed.

(** The loop takes [steps] elements out of the live prefix of the pool. *)
Lemma sample_loop_Permutation (rnd : nat -> nat) (n : nat) :
  forall (steps i : nat) (pool : list A),
    length pool = n -> (i + steps <= n)%nat ->
    length (Random.sample_loop rnd n pool i steps) = steps
    /\ exists rest,
        take (n - i) pool ≡ₚ Random.sample_loop rnd n pool i steps ++ rest.
Proof.
  induction steps as [|steps IH]; intros i pool Hlen Hle; simpl.
  - split; [done |]. by exists (take (n - i) pool).
  - assert (Hj : (rnd i mod (n - i) < n - i)%nat)
      by (apply Nat.mod_upper_bound; lia).
    destruct (lookup_lt_is_Some_2 pool (rnd i mod (n - i))) as [x Hx];
      [lia |].
    destruct (lookup_lt_is_Some_2 pool (n - i - 1)) as [y Hy]; [lia |].
    rewrite Hx, Hy. simpl.
    destruct (IH (S i) (<[(rnd i mod (n - i))%nat := y]> pool))
      as [Hl [rest Hp]]; [by rewrite length_insert | lia |].
    split; [by rewrite Hl |]. exists rest.
    replace (n - i)%nat with (S (n - i - 1)) at 1 by lia.
    rewrite (swap_remove_Permutation pool (n - i - 1) _ x y Hx Hy) by lia.
    replace (n - i - 1)%nat with (n - S i)%nat by lia.
    by rewrite Hp.
Qed.

Lemma sample_Permutation (rnd : nat -> nat) (population : list A) (k : Z) :
  0 <= k <= Z.of_nat (length population) ->
  exists l rest,
    Random.sample rnd population k = Ok l
    /\ length l = Z.to_nat k
    /\ population ≡ₚ l ++ rest.
Proof.
  intros Hk. unfold Random.sample.
  destruct (k <? 0) eqn:Hneg; [apply Z.ltb_lt in Hneg; lia |].
  destruct (Z.of_nat (length population) <? k) eqn:Hbig;
    [apply Z.ltb_lt in Hbig; lia |].
  simpl.
  destruct (sample_loop_Permutation rnd (length population) (Z.to_nat k) 0
              population) as [Hl [rest Hp]]; [done | lia |].
  eexists _, rest. split; [done |]. split; [done |].
  rewrite Nat.sub_0_r, firstn_all in Hp. done.
Qed.

End Sampling.

(** The loop is natural in the elements: it only moves them. *)
Lemma sample_loop_fmap {A B} (f : A -> B) (rnd : nat -> nat) (n : nat) :
  forall (steps i : nat) (pool : list A),
    Random.sample_loop rnd n (f <$> pool) i steps
    = f <$> Random.sample_loop rnd n pool i steps.
Proof.
  induction steps as [|steps IH]; intros i pool; simpl; [done |].
  rewrite !list_lookup_fmap.
  destruct (pool !! (rnd i mod (n - i))%nat) as [x|]; simpl; [|done].
  destruct (pool !! (n - i - 1)%nat) as [y|]; simpl; [|done].
  by rewrite <- list_fmap_insert, IH.
Qed.

(* ===================================================================== *)
(** ** The question service                                               *)
(* ===================================================================== *)

Section Questions.
Import Firestore FirestoreService.
Context `{PyRepr}.

Lemma request_up {A} (db : Client) (answer : A) :
  outage db = None -> request db answer = Ok answer.
Proof. intros Hup. unfold request. by rewrite Hup. Qed.

Lemma request_down {A} (db : Client) (answer : A) (e : exn) :
  outage db = Some e -> request db answer = Raise e.
Proof. intros Hdown. unfold request. by rewrite Hdown. Qed.

(** The query the service builds selects the bank. *)
Lemma selected_subject_query (db : Client) (subject : option str) :
  selected (subject_query db subject) = bank db subject.
Proof.
  unfold selected, bank, subject_query.
  destruct subject as [[|c s]|]; simpl; apply list_filter_iff; done.
Qed.

Lemma subject_query_unprojected (db : Client) (subject : option str) :
  q_select (subject_query db subject) = None.
Proof. unfold subject_query. by destruct subject as [[|c s]|]. Qed.

Lemma collect_questions_fmap (l : list (str * dict)) :
  forall acc : list dict,
    collect_questions
      (map (fun kv => mkSnapshot kv.1 true (project None kv.2)) l) acc
    = acc ++ (as_question <$> l).
Proof.
  induction l as [|kv l IH]; intros acc; simpl.
  - by rewrite app_nil_r.
  - rewrite IH, <- app_assoc. done.
Qed.

Lemma bank_NoDup_ids (db : Client) (subject : option str) :
  NoDup (bank db subject).*1.
Proof.
  unfold bank.
  apply (sublist_NoDup _ (map_to_list (stored_questions db)).*1);
    [apply NoDup_fst_map_to_list |].
  apply fmap_sublist, sublist_filter.
Qed.

Lemma as_question_id (kv : str * dict) :
  as_question kv !! "id" = Some (VStr kv.1).
Proof. unfold as_question. apply lookup_insert_eq. Qed.

Lemma as_question_NoDup (l : list (str * dict)) :
  NoDup l.*1 -> NoDup (as_question <$> l).
Proof.
  induction l as [|kv l IH]; simpl; intros Hnd; [constructor |].
  apply NoDup_cons in Hnd as [Hnotin Hnd]. apply NoDup_cons. split; [|auto].
  intros (kv' & Heq & Hin)%list_elem_of_fmap. apply Hnotin.
  assert (Hid : kv.1 = kv'.1).
  { pose proof (as_question_id kv) as Hk. rewrite Heq, as_question_id in Hk.
    by injection Hk. }
  rewrite Hid. apply list_elem_of_fmap. eauto.
Qed.

(** The outcome of sampling, in terms of the bank. *)
Lemma get_random_questions_chosen (db : Client) (rnd : nat -> nat)
    (count : Z) (subject : option str) :
  outage db = None ->
  0 <= count ->
  exists chosen rest,
    get_random_questions db rnd count subject = Ok (as_question <$> chosen)
    /\ length chosen
       = Nat.min (Z.to_nat count) (length (bank db subject))
    /\ bank db subject ≡ₚ chosen ++ rest.
Proof.
  intros Hup Hcount.
  unfold get_random_questions, get_random_questions_body, stream.
  rewrite (request_up db _ Hup). cbn [bind].
  rewrite selected_subject_query, subject_query_unprojected.
  rewrite collect_questions_fmap, app_nil_l.
  destruct (sample_Permutation rnd (bank db subject)
              (Z.min count (Z.of_nat (length (bank db subject)))))
    as (chosen & rest & Hs & Hl & Hp); [lia |].
  destruct (as_question <$> bank db subject) as [|d ds] eqn:Hall.
  - apply fmap_nil_inv in Hall. rewrite Hall in *.
    exists [], []. split; [done |]. split; [|done].
    simpl. by rewrite Nat.min_0_r.
  - rewrite <- Hall. unfold Random.sample in *.
    rewrite length_fmap.
    destruct ((Z.min count (Z.of_nat (length (bank db subject))) <? 0)
              || (Z.of_nat (length (bank db subject))
                  <? Z.min count (Z.of_nat (length (bank db subject)))));
      [done |].
    injection Hs as <-. rewrite sample_loop_fmap. cbn [bind try_except].
    eexists _, rest. split; [done |]. split; [|done].
    rewrite Hl. lia.
Qed.

(** C2: for a requested count of at least one, sampling returns
    [min(count, N)] questions out of the [N] stored questions matching the
    filter, each a document of that bank, no document twice; with no
    matching question it returns the empty list. *)
Theorem get_random_questions_spec (db : Client) (rnd : nat -> nat)
    (count : Z) (subject : option str) :
  outage db = None ->
  1 <= count ->
  exists chosen,
    get_random_questions db rnd count subject = Ok (as_question <$> chosen)
    /\ length (as_question <$> chosen)
       = Nat.min (Z.to_nat count) (length (bank db subject))
    /\ NoDup chosen.*1
    /\ NoDup (as_question <$> chosen)
    /\ chosen ⊆ bank db subject
    /\ (bank db subject = [] -> chosen = []).
Proof.
  intros Hup Hcount.
  destruct (get_random_questions_chosen db rnd count subject Hup)
    as (chosen & rest & Hr & Hl & Hp); [lia |].
  assert (Hnd : NoDup chosen.*1).
  { pose proof (bank_NoDup_ids db subject) as Hb.
    rewrite Hp, fmap_app in Hb. by apply NoDup_app in Hb as [? _]. }
  exists chosen. split; [done |]. split; [by rewrite length_fmap |].
  split; [done |]. split; [by apply as_question_NoDup |]. split.
  - intros kv Hin. rewrite Hp. apply elem_of_app. by left.
  - intros Hempty. rewrite Hempty in Hp.
    apply Permutation_nil_l in Hp. symmetry in Hp.
    by apply app_eq_nil in Hp as [? _].
Qed.

End Questions.

Lemma get_random_questions_spec_witness :
  exists chosen,
    @FirestoreService.get_random_questions plain_repr example_bank
      (fun _ => 0%nat) 2 None
    = Ok (as_question <$> chosen)
    /\ length (as_question <$> chosen)
       = Nat.min (Z.to_nat 2) (length (bank example_bank None))
    /\ NoDup chosen.*1
    /\ NoDup (as_question <$> chosen)
    /\ chosen ⊆ bank example_bank None
    /\ (bank example_bank None = [] -> chosen = []).
Proof.
  apply (@get_random_questions_spec plain_repr example_bank
           (fun _ => 0%nat) 2 None); [reflexivity | lia].
Defined.

Section Counting.
Import Firestore FirestoreService.
Context `{PyRepr}.

Lemma count_by_aggregation_up (db : Client) (query : Query) :
  outage db = None -> has_count db = true ->
  count_by_aggregation db query = Ok (Z.of_nat (length (selected query))).
Proof.
  intros Hup Hagg. unfold count_by_aggregation, count, aggregation_get.
  rewrite Hagg. cbn [bind]. by rewrite (request_up db _ Hup).
Qed.

Lemma count_manually_up (db : Client) (query : Query) :
  outage db = None ->
  count_manually db query = Ok (Z.of_nat (length (selected query))).
Proof.
  intros Hup. unfold count_manually, stream.
  rewrite (request_up db _ Hup). cbn [bind]. by rewrite length_map.
Qed.

(** The two paths agree whenever the aggregation path is available, an
    outage of the store included. *)
Lemma count_paths_agree (db : Client) (query : Query) :
  has_count db = true ->
  count_by_aggregation db query = count_manually db query.
Proof.
  intros Hagg. destruct (outage db) as [e|] eqn:Hout.
  - unfold count_by_aggregation, count_manually, count, aggregation_get,
      stream.
    rewrite Hagg. cbn [bind]. by rewrite !(request_down db _ e Hout).
  - by rewrite count_by_aggregation_up, count_manually_up.
Qed.

Lemma get_questions_count_up (db : Client) (subject : option str) :
  outage db = None ->
  get_questions_count db subject = Ok (Z.of_nat (length (bank db subject))).
Proof.
  intros Hup.
  pose proof (count_manually_up db (subject_query db subject) Hup) as Hman.
  rewrite selected_subject_query in Hman.
  unfold get_questions_count, get_questions_count_body.
  destruct (has_count db) eqn:Hagg.
  - rewrite count_by_aggregation_up, selected_subject_query by done. done.
  - unfold count_by_aggregation, count. rewrite Hagg. cbn [bind try_except].
    by rewrite Hman.
Qed.

(** C7: the count is the number of stored documents matching the filter,
    on the aggregation path and on the manual-count fallback alike, and
    the two paths give the same value. *)
Theorem get_questions_count_spec (db : Client) (subject : option str) :
  outage db = None ->
  get_questions_count db subject
  = Ok (Z.of_nat (length (bank db subject)))
  /\ count_manually db (subject_query db subject)
     = Ok (Z.of_nat (length (bank db subject)))
  /\ (has_count db = true ->
      count_by_aggregation db (subject_query db subject)
      = count_manually db (subject_query db subject)).
Proof.
  intros Hup.
  pose proof (count_manually_up db (subject_query db subject) Hup) as Hman.
  rewrite selected_subject_query in Hman.
  split; [by apply get_questions_count_up |].
  split; [done | apply count_paths_agree].
Qed.

(** C10: for an identifier with no stored document the service returns no
    question data; the 404 it raises inside its [try] is caught by its own
    catch-all handler, and what reaches the caller carries status 500. *)
Theorem get_question_by_id_not_found (db : Client) (question_id : str) :
  stored_questions db !! question_id = None ->
  (forall data, get_question_by_id db question_id <> Ok data)
  /\ (exists message,
         get_question_by_id db question_id
         = Raise (HTTPException 500 (mkDetail message None)))
  /\ (outage db = None ->
      get_question_by_id_body db question_id
      = Raise (HTTPException 404
                 (mkDetail (lit "Pregunta no encontrada") None))).
Proof.
  intros Hnone.
  assert (Hraise : exists message,
             get_question_by_id db question_id
             = Raise (HTTPException 500 (mkDetail message None))).
  { unfold get_question_by_id, get_question_by_id_body, document_get, request.
    unfold stored_questions in Hnone. unfold collection_name.
    rewrite Hnone. destruct (outage db) as [e|]; cbn [bind try_except].
    - destruct e; simpl; eauto.
    - simpl. eauto. }
  split; [|split; [done |]].
  - intros data Hok. destruct Hraise as [message Hr]. congruence.
  - intros Hup. unfold get_question_by_id_body, document_get.
    rewrite (request_up db _ Hup).
    unfold stored_questions in Hnone. unfold collection_name.
    by rewrite Hnone.
Qed.

End Counting.

Lemma get_questions_count_spec_witness :
  @FirestoreService.get_questions_count plain_repr example_bank_no_count
    (Some (lit "Aritmética"))
  = Ok (Z.of_nat (length (bank example_bank_no_count
                            (Some (lit "Aritmética")))))
  /\ FirestoreService.count_manually example_bank_no_count
       (FirestoreService.subject_query example_bank_no_count
          (Some (lit "Aritmética")))
     = Ok (Z.of_nat (length (bank example_bank_no_count
                               (Some (lit "Aritmética")))))
  /\ (Firestore.has_count example_bank_no_count = true ->
      FirestoreService.count_by_aggregation example_bank_no_count
        (FirestoreService.subject_query example_bank_no_count
           (Some (lit "Aritmética")))
      = FirestoreService.count_manually example_bank_no_count
          (FirestoreService.subject_query example_bank_no_count
             (Some (lit "Aritmética")))).
Proof.
  apply (@get_questions_count_spec plain_repr example_bank_no_count
           (Some (lit "Aritmética"))).
  reflexivity.
Defined.

Lemma get_question_by_id_not_found_witness :
  (forall data,
      @FirestoreService.get_question_by_id plain_repr example_bank (lit "q9")
      <> Ok data)
  /\ (exists message,
         @FirestoreService.get_question_by_id plain_repr example_bank
           (lit "q9")
         = Raise (HTTPException 500 (mkDetail message None)))
  /\ (Firestore.outage example_bank = None ->
      FirestoreService.get_question_by_id_body example_bank (lit "q9")
      = Raise (HTTPException 404
                 (mkDetail (lit "Pregunta no encontrada") None))).
Proof.
  apply (@get_question_by_id_not_found plain_repr example_bank (lit "q9")).
  vm_compute. reflexivity.
Defined.

(* ===================================================================== *)
(** ** Errors of the collaborators                                        *)
(* ===================================================================== *)

Section CollaboratorErrors.
Import Schemas Genai GeminiService Firestore FirestoreService.
Context `{PyRepr}.

Lemma firestore_handlers_status {A} (e : exn) :
  exists message,
    firestore_handlers (A := A) e
    = Raise (HTTPException 500 (mkDetail message None)).
Proof. destruct e; simpl; eauto. Qed.

Lemma gemini_status_range (e : exn) :
  gemini_status e = 400 \/ gemini_status e = 502 \/ gemini_status e = 500.
Proof. destruct e; simpl; auto. Qed.

(** Whatever a generation method raises left its handlers. *)
Lemma gemini_try_raises {A} (body : result A) (e : exn) :
  try_except body gemini_handlers = Raise e ->
  exists status message,
    e = HTTPException status (mkDetail message None)
    /\ (status = 400 \/ status = 502 \/ status = 500).
Proof.
  destruct body as [a|e0]; simpl; [done |].
  destruct (gemini_handlers_status (A := A) e0) as [message ->].
  intros [= <-]. eauto using gemini_status_range.
Qed.

Lemma firestore_try_raises {A} (body : result A) (e : exn) :
  try_except body firestore_handlers = Raise e ->
  exists message, e = HTTPException 500 (mkDetail message None).
Proof.
  destruct body as [a|e0]; simpl; [done |].
  destruct (firestore_handlers_status (A := A) e0) as [message ->].
  intros [= <-]. eauto.
Qed.

Lemma firestore_try_down {A} (body : result A) (e : exn) :
  body = Raise e ->
  exists message,
    try_except body firestore_handlers
    = Raise (HTTPException 500 (mkDetail message None)).
Proof. intros ->. simpl. apply firestore_handlers_status. Qed.

(** C8, as the code has it. An error the generative API raises during an
    explanation or feedback call leaves the service as an HTTP exception
    with a status and a message: 400 for a client error, 502 for a server
    error, 500 for any other. An error of the document store leaves every
    method of the question service as an HTTP exception of status 500.
    These methods raise nothing but such HTTP exceptions. Two paths do not
    convert: the connectivity test reports the error in its payload, and
    the attribute error of a missing count aggregation starts the manual
    count. *)
Theorem collaborator_errors_become_http_errors :
  (forall (client : Genai.Client) (text : str) (e : exn),
      ~ blank text ->
      generate_content client Settings.gemini_model
        (_create_explanation_prompt text)
        (mkConfig (3 # 10) Settings.max_explanation_tokens) = Raise e ->
      exists message,
        generate_explanation client text
        = Raise (HTTPException (gemini_status e) (mkDetail message None)))
  /\ (forall (client : Genai.Client) (qs : list Question) (ua : UserAttempt)
             (prompt : str) (e : exn),
         feedback_prompt qs ua = Ok prompt ->
         generate_content client Settings.gemini_model prompt
           (mkConfig (6 # 10) Settings.max_feedback_tokens) = Raise e ->
         exists message,
           generate_feedback client qs ua
           = Raise (HTTPException (gemini_status e) (mkDetail message None)))
  /\ (forall (db : Firestore.Client) (e : exn),
         outage db = Some e ->
         (forall question_id, exists message,
               get_question_by_id db question_id
               = Raise (HTTPException 500 (mkDetail message None)))
         /\ (forall rnd count subject, exists message,
                get_random_questions db rnd count subject
                = Raise (HTTPException 500 (mkDetail message None)))
         /\ (exists message,
                get_available_subjects db
                = Raise (HTTPException 500 (mkDetail message None)))
         /\ (forall subject, exists message,
                get_questions_count db subject
                = Raise (HTTPException 500 (mkDetail message None))))
  /\ (forall (client : Genai.Client) (text : str) (qs : list Question)
             (ua : UserAttempt) (e : exn),
         generate_explanation client text = Raise e
         \/ generate_feedback client qs ua = Raise e ->
         exists status message,
           e = HTTPException status (mkDetail message None)
           /\ (status = 400 \/ status = 502 \/ status = 500))
  /\ (forall (db : Firestore.Client) question_id rnd count subject (e : exn),
         get_question_by_id db question_id = Raise e
         \/ get_random_questions db rnd count subject = Raise e
         \/ get_available_subjects db = Raise e
         \/ get_questions_count db subject = Raise e ->
         exists message, e = HTTPException 500 (mkDetail message None))
  /\ (forall (client : Genai.Client) (e : exn),
         generate_content client Settings.gemini_model
           (lit "Di 'Hola mundo'") (mkConfig (1 # 10) 10) = Raise e ->
         test_connection client
         = Ok (mkReport (lit "error") (Some (str_of_exn e))))
  /\ (forall (db : Firestore.Client) (subject : option str),
         outage db = None -> has_count db = false ->
         (exists m, count db (subject_query db subject)
                    = Raise (AttributeError m))
         /\ get_questions_count db subject
            = Ok (Z.of_nat (length (bank db subject)))).
Proof.
  split; [|split; [|split; [|split; [|split; [|split]]]]].
  - intros client text e Hnb He. unfold generate_explanation,
      generate_explanation_body.
    apply strip_truthy_not_blank in Hnb. rewrite Hnb, He. cbn [negb bind].
    cbn [try_except]. apply gemini_handlers_status.
  - intros client qs ua prompt e Hp He. unfold generate_feedback,
      generate_feedback_body.
    rewrite Hp. cbn [bind]. rewrite He. cbn [bind try_except].
    apply gemini_handlers_status.
  - intros db e Hdown. repeat split.
    + intros question_id. apply (firestore_try_down _ e).
      unfold get_question_by_id_body, document_get.
      by rewrite (request_down db _ e Hdown).
    + intros rnd count subject. apply (firestore_try_down _ e).
      unfold get_random_questions_body, stream.
      by rewrite (request_down db _ e Hdown).
    + apply (firestore_try_down _ e).
      unfold get_available_subjects_body, stream.
      by rewrite (request_down db _ e Hdown).
    + intros subject. apply (firestore_try_down _ e).
      unfold get_questions_count_body, count_by_aggregation, count_manually,
        count, aggregation_get, stream, request.
      rewrite Hdown.
      destruct (has_count db); cbn [bind try_except]; [|done].
      by destruct e.
  - intros client text qs ua e [He|He]; by apply gemini_try_raises in He.
  - intros db question_id rnd count subject e [He|[He|[He|He]]];
      by apply firestore_try_raises in He.
  - intros client e He. unfold test_connection, test_connection_body.
    by rewrite He.
  - intros db subject Hup Hagg. split.
    + unfold count. rewrite Hagg. eauto.
    + by apply get_questions_count_up.
Qed.

End CollaboratorErrors.

Lemma collaborator_errors_become_http_errors_witness :
  exists message,
    @GeminiService.generate_explanation plain_repr failing_client
      (lit "2+2?")
    = Raise (HTTPException 502 (mkDetail message None)).
Proof.
  destruct (@collaborator_errors_become_http_errors plain_repr)
    as (Hexp & _).
  apply (Hexp failing_client (lit "2+2?")
           (ServerError (lit "503 UNAVAILABLE"))).
  - intros Hb. inversion Hb. discriminate.
  - reflexivity.
Defined.

(** C8 as stated fails: a server error of the generative API during the
    connectivity test is answered with a report, not an HTTP error; and
    the attribute error of a store library without count aggregation is
    answered with the manual count. *)
Lemma collaborator_error_not_converted :
  Genai.generate_content failing_client Settings.gemini_model
    (lit "Di 'Hola mundo'") (Genai.mkConfig (1 # 10) 10)
  = Raise (ServerError (lit "503 UNAVAILABLE"))
  /\ @GeminiService.test_connection plain_repr failing_client
     = Ok (GeminiService.mkReport (lit "error")
             (Some (lit "503 UNAVAILABLE")))
  /\ Firestore.count example_bank_no_count
       (FirestoreService.subject_query example_bank_no_count None)
     = Raise (AttributeError (lit "'Query' object has no attribute 'count'"))
  /\ @FirestoreService.get_questions_count plain_repr example_bank_no_count
       None
     = Ok 3.
Proof.
  repeat split; vm_compute; reflexivity.
Qed.

(* ===================================================================== *)
(** ** The available subjects                                             *)
(* ===================================================================== *)

Lemma lex_leb_total (a : str) : forall b : str,
  str_leb a b = true \/ str_leb b a = true.
Proof.
  unfold str_leb.
  induction a as [|x a IH]; intros [|y b]; simpl; auto.
  destruct (x <? y)%N eqn:Hxy; [auto |].
  destruct (y <? x)%N eqn:Hyx; [auto |]. apply IH.
Qed.

#[global] Instance str_le_total : Total str_le.
Proof. intros a b. apply lex_leb_total. Qed.

#[global] Instance str_le_trans : Transitive str_le.
Proof.
  unfold str_le, str_leb. intros a.
  induction a as [|x a IH]; intros [|y b] [|z c]; simpl; try done.
  destruct (N.ltb_spec x y), (N.ltb_spec y x), (N.ltb_spec y z),
    (N.ltb_spec z y), (N.ltb_spec x z), (N.ltb_spec z x);
    try done; try lia.
  apply IH.
Qed.

#[global] Instance str_le_antisym : AntiSymm (=) str_le.
Proof.
  unfold str_le, str_leb. intros a.
  induction a as [|x a IH]; intros [|y b]; simpl; try done.
  destruct (N.ltb_spec x y), (N.ltb_spec y x); try done; try lia.
  intros Hab Hba. f_equal; [lia | by apply IH].
Qed.

#[global] Instance VStr_inj : Inj (=) (=) VStr.
Proof. by intros a b [=]. Qed.

Lemma filter_all_id {A} (P : A -> Prop) `{forall x, Decision (P x)}
    (l : list A) :
  (forall x, P x) -> filter P l = l.
Proof.
  intros HP. induction l as [|x l IH]; [done |].
  rewrite filter_cons_True by done. by rewrite IH.
Qed.

Lemma strs_of_all_str (l : list value) :
  forallb is_str l = true -> VStr <$> strs_of l = l.
Proof.
  unfold strs_of. induction l as [|v l IH]; simpl; [done |].
  intros [Hv Hl]%andb_true_iff. destruct v; try done.
  simpl. f_equal. by apply IH.
Qed.

(** [sorted] on text values: the merge sort of the texts. *)
Lemma sorted_all_str (l : list value) :
  forallb is_str l = true ->
  sorted l = Ok (VStr <$> merge_sort str_le (strs_of l)).
Proof.
  intros Hstr. destruct l as [|v [|w l]].
  - reflexivity.
  - by destruct v.
  - unfold sorted. by rewrite Hstr.
Qed.

Section Subjects.
Import Firestore FirestoreService.
Context `{PyRepr}.

Lemma project_subject (fields : dict) :
  project (Some ["subject"]) fields !! "subject" = fields !! "subject".
Proof.
  unfold project. destruct (fields !! "subject") as [v|] eqn:Hv.
  - apply map_lookup_filter_Some_2; [done |]. simpl. set_solver.
  - apply map_lookup_filter_None_2. by left.
Qed.

(** The set the loop builds, over documents whose subject is a text or
    null. *)
Lemma collect_subjects_text (l : list (str * dict)) :
  forall subjects : gset value,
    (forall kv v, kv ∈ l -> kv.2 !! "subject" = Some v ->
                  v = VNone \/ exists s, v = VStr s) ->
    exists subjects',
      collect_subjects
        (map (fun kv => mkSnapshot kv.1 true
                          (project (Some ["subject"]) kv.2)) l) subjects
      = Ok subjects'
      /\ forall v,
          v ∈ subjects'
          <-> v ∈ subjects
              \/ exists s kv, v = VStr s /\ s <> [] /\ kv ∈ l
                              /\ kv.2 !! "subject" = Some (VStr s).
Proof.
  induction l as [|kv l IH]; intros subjects Hty.
  - exists subjects. split; [done |]. intros v. split; [auto |].
    intros [Hv|(s & kv & _ & _ & Hin & _)]; [done |]. by inversion Hin.
  - cbn [map collect_subjects doc_exists to_dict]. rewrite project_subject.
    assert (Hty' : forall kv' v, kv' ∈ l -> kv'.2 !! "subject" = Some v ->
                     v = VNone \/ exists s, v = VStr s).
    { intros kv' v Hin. apply Hty. by right. }
    destruct (kv.2 !! "subject") as [v|] eqn:Hv.
    + destruct (Hty kv v) as [->|[s ->]]; [by left | done | |].
      * cbn [truthy]. destruct (IH subjects Hty') as (S' & -> & HS').
        exists S'. split; [done |]. intros v. rewrite HS'.
        split; intros [Hin|(s & kv' & -> & Hs & Hin & Hsub)]; auto.
        -- right. exists s, kv'. repeat split; try done. by right.
        -- apply elem_of_cons in Hin as [->|Hin]; [congruence |].
           right. exists s, kv'. done.
      * destruct s as [|c s]; cbn [truthy str_truthy set_add bind].
        -- destruct (IH subjects Hty') as (S' & -> & HS').
           exists S'. split; [done |]. intros v. rewrite HS'.
           split; intros [Hin|(s & kv' & -> & Hs & Hin & Hsub)]; auto.
           ++ right. exists s, kv'. repeat split; try done. by right.
           ++ apply elem_of_cons in Hin as [->|Hin]; [congruence |].
              right. exists s, kv'. done.
        -- destruct (IH ({[VStr (c :: s)]} ∪ subjects) Hty')
             as (S' & -> & HS').
           exists S'. split; [done |]. intros v. rewrite HS'.
           rewrite elem_of_union, elem_of_singleton.
           split.
           ++ intros [[->|Hin]|(s' & kv' & -> & Hs & Hin & Hsub)]; auto.
              ** right. exists (c :: s), kv. repeat split; try done.
                 by left.
              ** right. exists s', kv'. repeat split; try done. by right.
           ++ intros [Hin|(s' & kv' & -> & Hs & Hin & Hsub)]; auto.
              apply elem_of_cons in Hin as [->|Hin].
              ** left. left. congruence.
              ** right. exists s', kv'. done.
    + destruct (IH subjects Hty') as (S' & -> & HS').
      exists S'. split; [done |]. intros v. rewrite HS'.
      split; intros [Hin|(s & kv' & -> & Hs & Hin & Hsub)]; auto.
      * right. exists s, kv'. repeat split; try done. by right.
      * apply elem_of_cons in Hin as [->|Hin]; [congruence |].
        right. exists s, kv'. done.
Qed.

(** C6: over a bank whose subjects are texts (or missing, or null), the
    service returns the distinct subject labels: an ascending list with no
    duplicate that holds exactly the non-empty subjects occurring in some
    stored question. *)
Theorem get_available_subjects_spec (db : Client) :
  outage db = None ->
  subjects_are_text db ->
  exists labels : list str,
    get_available_subjects db = Ok (VStr <$> labels)
    /\ StronglySorted str_le labels
    /\ NoDup labels
    /\ forall s, s ∈ labels <-> s <> [] /\ subject_occurs db s.
Proof.
  intros Hup Hty.
  unfold get_available_subjects, get_available_subjects_body, stream.
  rewrite (request_up db _ Hup). cbn [bind].
  unfold selected. cbn [select q_where q_select q_source collection].
  rewrite filter_all_id by done.
  destruct (collect_subjects_text (map_to_list (stored_questions db)) ∅)
    as (subjects & Hcollect & Hsubjects).
  { intros [document_id fields] v Hin%elem_of_map_to_list Hsub.
    by apply (Hty document_id fields v). }
  unfold stored_questions, collection_name in *.
  rewrite Hcollect. cbn [bind].
  assert (Hstr : forallb is_str (elements subjects) = true).
  { apply forallb_forall. intros v Hin%list_elem_of_In.
    apply elem_of_elements, Hsubjects in Hin
      as [Hin|(s & kv & -> & _)]; [set_solver | done]. }
  rewrite (sorted_all_str _ Hstr). cbn [bind try_except].
  exists (merge_sort str_le (strs_of (elements subjects))).
  split; [done |]. split; [apply StronglySorted_merge_sort; apply _ |].
  assert (Hnd : NoDup (strs_of (elements subjects))).
  { apply (NoDup_fmap_1 VStr). rewrite (strs_of_all_str _ Hstr).
    apply NoDup_elements. }
  split; [by rewrite merge_sort_Permutation |].
  intros s. rewrite merge_sort_Permutation.
  rewrite <- (list_elem_of_fmap_inj VStr), (strs_of_all_str _ Hstr).
  rewrite elem_of_elements, Hsubjects. unfold subject_occurs. split.
  - intros [Hin|(s' & [document_id fields] & [= <-] & Hs & Hin & Hsub)];
      [set_solver |].
    apply elem_of_map_to_list in Hin. split; [done |].
    exists document_id, fields. done.
  - intros (Hs & document_id & fields & Hin & Hsub). right.
    exists s, (document_id, fields).
    repeat split; try done. by apply elem_of_map_to_list.
Qed.

End Subjects.

Lemma example_bank_subjects_are_text : subjects_are_text example_bank.
Proof.
  intros document_id fields v Hdoc Hsub. right.
  apply elem_of_map_to_list in Hdoc. vm_compute in Hdoc.
  repeat (apply elem_of_cons in Hdoc as [[= -> ->]|Hdoc];
          [vm_compute in Hsub; injection Hsub as <-; eauto |]).
  inversion Hdoc.
Qed.

Lemma get_available_subjects_spec_witness :
  exists labels : list str,
    @FirestoreService.get_available_subjects plain_repr example_bank
    = Ok (VStr <$> labels)
    /\ StronglySorted str_le labels
    /\ NoDup labels
    /\ forall s, s ∈ labels <-> s <> [] /\ subject_occurs example_bank s.
Proof.
  apply (@get_available_subjects_spec plain_repr example_bank).
  - reflexivity.
  - apply example_bank_subjects_are_text.
Defined.

(* ===================================================================== *)
(** ** The question service: lookups, sampling and counting together      *)
(* ===================================================================== *)

Section QuestionService.
Import Firestore FirestoreService.
Context `{PyRepr}.

(** X1: a lookup by identifier returns data exactly when the store
    answers and holds a document under that identifier, and the data is
    the stored fields, unchanged (no ["id"] is added). *)
Theorem get_question_by_id_found_iff (db : Client) (question_id : str)
    (data : dict) :
  get_question_by_id db question_id = Ok data
  <-> outage db = None /\ stored_questions db !! question_id = Some data.
Proof.
  unfold get_question_by_id, get_question_by_id_body, document_get, request,
    stored_questions, collection_name.
  destruct (outage db) as [e|]; cbn [bind try_except].
  - destruct (firestore_handlers_status (A := dict) e) as [message ->].
    split; [done | by intros [? _]].
  - destruct (default ∅ (collections db !! "questions") !! question_id)
      as [fields|]; cbn [doc_exists negb to_dict try_except].
    + split; [by intros [= ->] | by intros [_ [= ->]]].
    + split; [done | by intros [_ ?]].
Qed.

(** The outcome of sampling when the store answers, by cases on the
    count. *)
Lemma get_random_questions_empty (db : Client) (rnd : nat -> nat)
    (count : Z) (subject : option str) :
  outage db = None -> bank db subject = [] ->
  get_random_questions db rnd count subject = Ok [].
Proof.
  intros Hup Hempty.
  unfold get_random_questions, get_random_questions_body, stream.
  rewrite (request_up db _ Hup). cbn [bind].
  rewrite selected_subject_query, subject_query_unprojected, Hempty.
  done.
Qed.

Lemma get_random_questions_negative (db : Client) (rnd : nat -> nat)
    (count : Z) (subject : option str) :
  outage db = None -> bank db subject <> [] -> count < 0 ->
  exists message,
    get_random_questions db rnd count subject
    = Raise (HTTPException 500 (mkDetail message None)).
Proof.
  intros Hup Hne Hneg.
  unfold get_random_questions, get_random_questions_body, stream.
  rewrite (request_up db _ Hup). cbn [bind].
  rewrite selected_subject_query, subject_query_unprojected.
  rewrite collect_questions_fmap, app_nil_l.
  destruct (bank db subject) as [|kv l]; [done |].
  cbn [fmap list_fmap]. unfold Random.sample.
  match goal with
  | |- context [Z.min count ?n <? 0] =>
    replace (Z.min count n <? 0) with true by (symmetry; apply Z.ltb_lt; lia)
  end.
  cbn [orb bind try_except]. eauto.
Qed.

Lemma get_random_questions_down (db : Client) (rnd : nat -> nat)
    (count : Z) (subject : option str) (e : exn) :
  outage db = Some e ->
  exists message,
    get_random_questions db rnd count subject
    = Raise (HTTPException 500 (mkDetail message None)).
Proof.
  intros Hdown. apply (firestore_try_down _ e).
  unfold get_random_questions_body, stream.
  by rewrite (request_down db _ e Hdown).
Qed.

(** Whatever sampling returns was chosen out of the bank. *)
Lemma get_random_questions_ok_inv (db : Client) (rnd : nat -> nat)
    (count : Z) (subject : option str) (l : list dict) :
  get_random_questions db rnd count subject = Ok l ->
  outage db = None
  /\ exists chosen rest,
      l = as_question <$> chosen
      /\ bank db subject ≡ₚ chosen ++ rest
      /\ Z.of_nat (length chosen)
         = Z.max 0 (Z.min count (Z.of_nat (length (bank db subject)))).
Proof.
  intros Hok. destruct (outage db) as [e|] eqn:Hout.
  { destruct (get_random_questions_down db rnd count subject e Hout)
      as [message Hr]. congruence. }
  split; [done |].
  destruct (bank db subject) as [|kv b] eqn:Hbank.
  - rewrite (get_random_questions_empty db rnd count subject Hout Hbank)
      in Hok.
    injection Hok as <-. exists [], []. repeat split; simpl; [done | lia].
  - destruct (Z.ltb_spec count 0) as [Hneg|Hpos].
    + destruct (get_random_questions_negative db rnd count subject Hout)
        as [message Hr]; [by rewrite Hbank | done | congruence].
    + destruct (get_random_questions_chosen db rnd count subject Hout Hpos)
        as (chosen & rest & Hr & Hl & Hp).
      rewrite Hr in Hok. injection Hok as <-. rewrite Hbank in *.
      exists chosen, rest. repeat split; [done |]. lia.
Qed.

(** X2: every question sampling returns is a stored document that
    matches the filter, handed out as its stored fields with the document
    identifier written under ["id"] (a stored ["id"] field is
    overwritten; every other field is as stored). *)
Theorem get_random_questions_members (db : Client) (rnd : nat -> nat)
    (count : Z) (subject : option str) (l : list dict) (d : dict) :
  get_random_questions db rnd count subject = Ok l ->
  d ∈ l ->
  exists (document_id : str) (fields : dict),
    stored_questions db !! document_id = Some fields
    /\ matches_subject subject fields
    /\ d = <["id" := VStr document_id]> fields
    /\ d !! "id" = Some (VStr document_id)
    /\ forall k, k <> "id" -> d !! k = fields !! k.
Proof.
  intros Hok Hin.
  apply get_random_questions_ok_inv in Hok
    as (_ & chosen & rest & -> & Hp & _).
  apply list_elem_of_fmap in Hin as ([document_id fields] & -> & Hin).
  assert (Hb : (document_id, fields) ∈ bank db subject).
  { rewrite Hp. apply elem_of_app. by left. }
  unfold bank in Hb. apply list_elem_of_filter in Hb as [Hm Hs].
  apply elem_of_map_to_list in Hs.
  exists document_id, fields. unfold as_question. simpl.
  repeat split; [done | done | apply lookup_insert_eq |].
  intros k Hk. by rewrite lookup_insert_ne.
Qed.

End QuestionService.

Lemma get_random_questions_members_witness :
  exists (document_id : str) (fields : dict),
    stored_questions example_bank !! document_id = Some fields
    /\ matches_subject (Some (lit "Aritmética")) fields
    /\ as_question (lit "q1", {[ "question" := VStr (lit "2+2?");
                                 "subject" := VStr (lit "Aritmética") ]})
       = <["id" := VStr document_id]> fields
    /\ as_question (lit "q1", {[ "question" := VStr (lit "2+2?");
                                 "subject" := VStr (lit "Aritmética") ]})
       !! "id" = Some (VStr document_id)
    /\ forall k, k <> "id" ->
         as_question (lit "q1", {[ "question" := VStr (lit "2+2?");
                                   "subject" := VStr (lit "Aritmética") ]})
         !! k = fields !! k.
Proof.
  apply (@get_random_questions_members plain_repr example_bank
           (fun _ => 1%nat) 3 (Some (lit "Aritmética"))
           [as_question (lit "q1", {[ "question" := VStr (lit "2+2?");
                                      "subject" := VStr (lit "Aritmética") ]});
            as_question (lit "q3", {[ "question" := VStr (lit "3+3?");
                                      "subject" := VStr (lit "Aritmética") ]})]).
  - vm_compute. reflexivity.
  - apply elem_of_cons. by left.
Defined.

Section SamplingEdges.
Import Firestore FirestoreService.
Context `{PyRepr}.

(** X3: with a non-empty subject asked for, every question returned is
    filed under exactly that subject. *)
Theorem get_random_questions_subject (db : Client) (rnd : nat -> nat)
    (count : Z) (s : str) (l : list dict) (d : dict) :
  s <> [] ->
  get_random_questions db rnd count (Some s) = Ok l ->
  d ∈ l ->
  d !! "subject" = Some (VStr s).
Proof.
  intros Hs Hok Hin.
  apply get_random_questions_ok_inv in Hok
    as (_ & chosen & rest & -> & Hp & _).
  apply list_elem_of_fmap in Hin as ([document_id fields] & -> & Hin).
  assert (Hb : (document_id, fields) ∈ bank db (Some s)).
  { rewrite Hp. apply elem_of_app. by left. }
  unfold bank in Hb. apply list_elem_of_filter in Hb as [Hm _].
  unfold as_question. simpl in *. rewrite lookup_insert_ne by done.
  by destruct s.
Qed.

(** X4: asking for at least as many questions as match returns every
    matching question once, in some order. *)
Theorem get_random_questions_all (db : Client) (rnd : nat -> nat)
    (count : Z) (subject : option str) :
  outage db = None ->
  Z.of_nat (length (bank db subject)) <= count ->
  exists l,
    get_random_questions db rnd count subject = Ok l
    /\ l ≡ₚ as_question <$> bank db subject.
Proof.
  intros Hup Hcount.
  destruct (get_random_questions_chosen db rnd count subject Hup)
    as (chosen & rest & Hr & Hl & Hp); [lia |].
  exists (as_question <$> chosen). split; [done |].
  assert (Hrest : rest = []).
  { apply Permutation_length in Hp. rewrite length_app in Hp.
    destruct rest; [done |]. simpl in Hp. lia. }
  subst rest. rewrite app_nil_r in Hp. by rewrite Hp.
Qed.

(** X5: the counts the route does not let through. With no matching
    question the answer is the empty list whatever the count; a count of
    zero gives the empty list; a negative count over a non-empty bank
    makes sampling fail, and the failure leaves as status 500. *)
Theorem get_random_questions_edge_counts (db : Client) (rnd : nat -> nat)
    (count : Z) (subject : option str) :
  outage db = None ->
  (bank db subject = [] ->
   get_random_questions db rnd count subject = Ok [])
  /\ (count = 0 -> get_random_questions db rnd count subject = Ok [])
  /\ (count < 0 -> bank db subject <> [] ->
      exists message,
        get_random_questions db rnd count subject
        = Raise (HTTPException 500 (mkDetail message None))).
Proof.
  intros Hup. split; [|split].
  - by apply get_random_questions_empty.
  - intros ->.
    destruct (get_random_questions_chosen db rnd 0 subject Hup)
      as (chosen & rest & Hr & Hl & _); [lia |].
    simpl in Hl. destruct chosen; [done | simpl in Hl; lia].
  - intros Hneg Hne. by apply get_random_questions_negative.
Qed.


End SamplingEdges.

Lemma get_random_questions_subject_witness :
  as_question (lit "q1", {[ "question" := VStr (lit "2+2?");
                            "subject" := VStr (lit "Aritmética") ]})
  !! "subject" = Some (VStr (lit "Aritmética")).
Proof.
  apply (@get_random_questions_subject plain_repr example_bank
           (fun _ => 1%nat) 3 (lit "Aritmética")
           [as_question (lit "q1", {[ "question" := VStr (lit "2+2?");
                                      "subject" := VStr (lit "Aritmética") ]});
            as_question (lit "q3", {[ "question" := VStr (lit "3+3?");
                                      "subject" := VStr (lit "Aritmética") ]})]).
  - vm_compute. discriminate.
  - vm_compute. reflexivity.
  - apply elem_of_cons. by left.
Defined.

Lemma get_random_questions_all_witness :
  exists l,
    @FirestoreService.get_random_questions plain_repr example_bank
      (fun _ => 0%nat) 20 None = Ok l
    /\ l ≡ₚ as_question <$> bank example_bank None.
Proof.
  apply (@get_random_questions_all plain_repr example_bank
           (fun _ => 0%nat) 20 None).
  - reflexivity.
  - vm_compute. discriminate.
Defined.

Lemma get_random_questions_edge_counts_witness :
  exists message,
    @FirestoreService.get_random_questions plain_repr example_bank
      (fun _ => 0%nat) (-1) None
    = Raise (HTTPException 500 (mkDetail message None)).
Proof.
  destruct (@get_random_questions_edge_counts plain_repr example_bank
              (fun _ => 0%nat) (-1) None) as (_ & _ & Hneg).
  - reflexivity.
  - apply Hneg; [lia |]. vm_compute. discriminate.
Defined.


Section CountingTogether.
Import Firestore FirestoreService.
Context `{PyRepr}.

Lemma bank_unfiltered (db : Client) :
  bank db None = map_to_list (stored_questions db).
Proof. unfold bank. by apply filter_all_id. Qed.

Lemma bank_length_le (db : Client) (subject : option str) :
  (length (bank db subject) <= length (bank db None))%nat.
Proof. rewrite bank_unfiltered. unfold bank. apply length_filter. Qed.

(** X7: a filtered count never exceeds the unfiltered count, which is the
    number of stored documents; neither is negative. *)
Theorem get_questions_count_monotone (db : Client) (subject : option str) :
  outage db = None ->
  exists n m,
    get_questions_count db subject = Ok n
    /\ get_questions_count db None = Ok m
    /\ 0 <= n <= m
    /\ m = Z.of_nat (size (stored_questions db)).
Proof.
  intros Hup. eexists _, _.
  split; [by apply get_questions_count_up |].
  split; [by apply get_questions_count_up |].
  pose proof (bank_length_le db subject) as Hle.
  split; [lia |]. by rewrite bank_unfiltered, length_map_to_list.
Qed.

(** X8: sampling and counting agree: for a count that is not negative,
    the number of questions returned is the smaller of the count asked
    for and the count the service reports for the same filter. *)
Theorem get_random_questions_length_count (db : Client) (rnd : nat -> nat)
    (count : Z) (subject : option str) :
  outage db = None ->
  0 <= count ->
  exists l n,
    get_random_questions db rnd count subject = Ok l
    /\ get_questions_count db subject = Ok n
    /\ Z.of_nat (length l) = Z.min count n.
Proof.
  intros Hup Hcount.
  destruct (get_random_questions_chosen db rnd count subject Hup Hcount)
    as (chosen & rest & Hr & Hl & _).
  eexists _, _. split; [exact Hr |].
  split; [by apply get_questions_count_up |].
  rewrite length_fmap. lia.
Qed.


End CountingTogether.

Lemma get_questions_count_monotone_witness :
  exists n m,
    @FirestoreService.get_questions_count plain_repr example_bank
      (Some (lit "Geografía")) = Ok n
    /\ @FirestoreService.get_questions_count plain_repr example_bank None
       = Ok m
    /\ 0 <= n <= m
    /\ m = Z.of_nat (size (stored_questions example_bank)).
Proof.
  apply (@get_questions_count_monotone plain_repr example_bank
           (Some (lit "Geografía"))).
  reflexivity.
Defined.

Lemma get_random_questions_length_count_witness :
  exists l n,
    @FirestoreService.get_random_questions plain_repr example_bank
      (fun i => i) 5 (Some (lit "Aritmética")) = Ok l
    /\ @FirestoreService.get_questions_count plain_repr example_bank
         (Some (lit "Aritmética")) = Ok n
    /\ Z.of_nat (length l) = Z.min 5 n.
Proof.
  apply (@get_random_questions_length_count plain_repr example_bank
           (fun i => i) 5 (Some (lit "Aritmética"))); [reflexivity | lia].
Defined.


(* ===================================================================== *)
(** ** The available subjects, whatever the documents hold                *)
(* ===================================================================== *)

Lemma ints_of_all_int (l : list value) :
  forallb is_int l = true -> VInt <$> ints_of l = l.
Proof.
  unfold ints_of. induction l as [|v l IH]; simpl; [done |].
  intros [Hv Hl]%andb_true_iff. destruct v; try done.
  simpl. f_equal. by apply IH.
Qed.

Lemma lists_of_all_list (l : list value) :
  forallb is_list l = true -> VList <$> lists_of l = l.
Proof.
  unfold lists_of. induction l as [|v l IH]; simpl; [done |].
  intros [Hv Hl]%andb_true_iff. destruct v; try done.
  simpl. f_equal. by apply IH.
Qed.

(** [sorted] only reorders. *)
Lemma sorted_Permutation (l l' : list value) :
  sorted l = Ok l' -> l' ≡ₚ l.
Proof.
  unfold sorted. destruct l as [|v [|w l]]; try by intros [= <-].
  destruct (forallb is_str (v :: w :: l)) eqn:Hstr.
  { intros Heq.
    replace l' with (VStr <$> merge_sort str_le (strs_of (v :: w :: l)))
      by congruence.
    transitivity (VStr <$> strs_of (v :: w :: l));
      [apply fmap_Permutation, merge_sort_Permutation |].
    by rewrite (strs_of_all_str _ Hstr). }
  destruct (forallb is_int (v :: w :: l)) eqn:Hint.
  { intros Heq.
    replace l' with (VInt <$> merge_sort Z.le (ints_of (v :: w :: l)))
      by congruence.
    transitivity (VInt <$> ints_of (v :: w :: l));
      [apply fmap_Permutation, merge_sort_Permutation |].
    by rewrite (ints_of_all_int _ Hint). }
  destruct (forallb is_list (v :: w :: l)) eqn:Hlist; [|done].
  intros Heq.
  replace l' with (VList <$> merge_sort strs_le (lists_of (v :: w :: l)))
    by congruence.
  transitivity (VList <$> lists_of (v :: w :: l));
    [apply fmap_Permutation, merge_sort_Permutation |].
  by rewrite (lists_of_all_list _ Hlist).
Qed.

Section SubjectsAnyway.
Import Firestore FirestoreService.
Context `{PyRepr}.

(** What the loop has collected when it ends. *)
Lemma collect_subjects_ok (l : list (str * dict)) :
  forall subjects subjects' : gset value,
    collect_subjects
      (map (fun kv => mkSnapshot kv.1 true
                        (project (Some ["subject"]) kv.2)) l) subjects
    = Ok subjects' ->
    forall v,
      v ∈ subjects'
      <-> v ∈ subjects
          \/ (truthy v = true
              /\ exists kv, kv ∈ l /\ kv.2 !! "subject" = Some v).
Proof.
  induction l as [|kv l IH]; intros subjects subjects' Hok v.
  - injection Hok as <-. split; [auto |].
    intros [Hv|(_ & kv & Hin & _)]; [done | by inversion Hin].
  - cbn [map collect_subjects doc_exists to_dict] in Hok.
    rewrite project_subject in Hok.
    destruct (kv.2 !! "subject") as [w|] eqn:Hw.
    + destruct (truthy w) eqn:Htw.
      * destruct w as [|z|s|x]; cbn [set_add bind] in Hok; try done;
          rewrite (IH _ _ Hok), elem_of_union, elem_of_singleton;
          (split;
           [intros [[->|Hin]|(Htv & kv' & Hin & Hsub)];
            [right; split; [done |]; exists kv; split; [by left | done]
            | by left
            | right; split; [done |]; exists kv'; split; [by right | done]]
           | intros [Hin|(Htv & kv' & Hin & Hsub)]; [by left; right |];
             apply elem_of_cons in Hin as [->|Hin];
             [left; left; congruence
             | right; split; [done |]; by exists kv']]).
      * rewrite (IH _ _ Hok). split.
        -- intros [Hin|(Htv & kv' & Hin & Hsub)]; [by left |].
           right. split; [done |]. exists kv'. split; [by right | done].
        -- intros [Hin|(Htv & kv' & Hin & Hsub)]; [by left |].
           apply elem_of_cons in Hin as [->|Hin]; [congruence |].
           right. split; [done |]. by exists kv'.
    + rewrite (IH _ _ Hok). split.
      * intros [Hin|(Htv & kv' & Hin & Hsub)]; [by left |].
        right. split; [done |]. exists kv'. split; [by right | done].
      * intros [Hin|(Htv & kv' & Hin & Hsub)]; [by left |].
        apply elem_of_cons in Hin as [->|Hin]; [congruence |].
        right. split; [done |]. by exists kv'.
Qed.

(** A non-empty list as a subject cannot enter the set. *)
Lemma collect_subjects_unhashable (l : list (str * dict)) :
  forall (subjects : gset value) (kv : str * dict) (x : str) (xs : list str),
    kv ∈ l -> kv.2 !! "subject" = Some (VList (x :: xs)) ->
    exists m,
      collect_subjects
        (map (fun kv => mkSnapshot kv.1 true
                          (project (Some ["subject"]) kv.2)) l) subjects
      = Raise (TypeError m).
Proof.
  induction l as [|kv' l IH]; intros subjects kv x xs Hin Hsub;
    [by inversion Hin |].
  cbn [map collect_subjects doc_exists to_dict]. rewrite project_subject.
  apply elem_of_cons in Hin as [->|Hin].
  - rewrite Hsub. cbn [truthy set_add bind]. eauto.
  - destruct (kv'.2 !! "subject") as [w|]; [|by eapply IH].
    destruct (truthy w); [|by eapply IH].
    destruct w; cbn [set_add bind]; eauto.
Qed.

Lemma get_available_subjects_ok_inv (db : Client) (l : list value) :
  get_available_subjects db = Ok l ->
  outage db = None
  /\ NoDup l
  /\ forall v,
      v ∈ l
      <-> truthy v = true
          /\ exists (document_id : str) (fields : dict),
              stored_questions db !! document_id = Some fields
              /\ fields !! "subject" = Some v.
Proof.
  intros Hok. destruct (outage db) as [e|] eqn:Hout.
  { exfalso. revert Hok.
    unfold get_available_subjects, get_available_subjects_body, stream.
    rewrite (request_down db _ e Hout). cbn [bind try_except].
    by destruct (firestore_handlers_status (A := list value) e)
      as [message ->]. }
  split; [done |]. revert Hok.
  unfold get_available_subjects, get_available_subjects_body, stream.
  rewrite (request_up db _ Hout). cbn [bind].
  unfold selected. cbn [select q_where q_select q_source collection].
  rewrite filter_all_id by done.
  destruct (collect_subjects _ ∅) as [subjects|e] eqn:Hcollect;
    cbn [bind try_except].
  2: { by destruct (firestore_handlers_status (A := list value) e)
         as [message ->]. }
  destruct (sorted (elements subjects)) as [sl|e] eqn:Hsorted;
    cbn [bind try_except].
  2: { by destruct (firestore_handlers_status (A := list value) e)
         as [message ->]. }
  intros [= <-]. apply sorted_Permutation in Hsorted.
  split; [rewrite Hsorted; apply NoDup_elements |].
  intros v. rewrite Hsorted, elem_of_elements.
  rewrite (collect_subjects_ok _ _ _ Hcollect v).
  unfold stored_questions, collection_name. split.
  - intros [Hin|(Htv & [document_id fields] & Hin & Hsub)]; [set_solver |].
    apply elem_of_map_to_list in Hin. split; [done |].
    by exists document_id, fields.
  - intros (Htv & document_id & fields & Hin & Hsub). right.
    split; [done |]. exists (document_id, fields).
    split; [by apply elem_of_map_to_list | done].
Qed.

(** X10: whenever the listing succeeds, it holds each truthy stored
    subject value once and nothing else: a missing, null, empty or zero
    subject is never listed. *)
Theorem get_available_subjects_members (db : Client) (l : list value) :
  get_available_subjects db = Ok l ->
  NoDup l
  /\ forall v,
      v ∈ l
      <-> truthy v = true
          /\ exists (document_id : str) (fields : dict),
              stored_questions db !! document_id = Some fields
              /\ fields !! "subject" = Some v.
Proof. intros Hok. by apply get_available_subjects_ok_inv in Hok as [_ ?]. Qed.

(** X11: every subject the listing returns can be used as a filter: the
    count for it is at least one. *)
Theorem listed_subject_has_questions (db : Client) (l : list value)
    (s : str) :
  get_available_subjects db = Ok l ->
  VStr s ∈ l ->
  exists n, get_questions_count db (Some s) = Ok n /\ 1 <= n.
Proof.
  intros Hok Hin.
  apply get_available_subjects_ok_inv in Hok as (Hup & _ & Hmem).
  apply Hmem in Hin as (Hts & document_id & fields & Hdoc & Hsub).
  eexists. split; [by apply get_questions_count_up |].
  assert (Hb : (document_id, fields) ∈ bank db (Some s)).
  { unfold bank. apply list_elem_of_filter. split.
    - simpl. by destruct s.
    - by apply elem_of_map_to_list. }
  destruct (bank db (Some s)); [by inversion Hb | simpl; lia].
Qed.

(** X12: one stored question whose subject is a non-empty list makes the
    listing fail for the whole bank: the list cannot enter the set, and
    the type error leaves as status 500. *)
Theorem get_available_subjects_list_subject (db : Client) :
  outage db = None ->
  list_subject_stored db ->
  exists message,
    get_available_subjects db
    = Raise (HTTPException 500 (mkDetail message None)).
Proof.
  intros Hup (document_id & fields & x & xs & Hdoc & Hsub).
  unfold get_available_subjects, get_available_subjects_body, stream.
  rewrite (request_up db _ Hup). cbn [bind].
  unfold selected. cbn [select q_where q_select q_source collection].
  rewrite filter_all_id by done.
  destruct (collect_subjects_unhashable
              (map_to_list (stored_questions db)) ∅
              (document_id, fields) x xs) as [m Hraise];
    [by apply elem_of_map_to_list | done |].
  unfold stored_questions, collection_name in *. rewrite Hraise.
  cbn [bind try_except]. simpl. eauto.
Qed.

End SubjectsAnyway.

Lemma get_available_subjects_members_witness :
  NoDup [VStr (lit "Aritmética"); VStr (lit "Geografía")]
  /\ forall v,
      v ∈ [VStr (lit "Aritmética"); VStr (lit "Geografía")]
      <-> truthy v = true
          /\ exists (document_id : str) (fields : dict),
              stored_questions example_bank !! document_id = Some fields
              /\ fields !! "subject" = Some v.
Proof.
  apply (@get_available_subjects_members plain_repr example_bank).
  vm_compute. reflexivity.
Defined.

Lemma listed_subject_has_questions_witness :
  exists n,
    @FirestoreService.get_questions_count plain_repr example_bank
      (Some (lit "Geografía")) = Ok n
    /\ 1 <= n.
Proof.
  apply (@listed_subject_has_questions plain_repr example_bank
           [VStr (lit "Aritmética"); VStr (lit "Geografía")]
           (lit "Geografía")).
  - vm_compute. reflexivity.
  - apply elem_of_cons. right. apply elem_of_cons. by left.
Defined.

Lemma get_available_subjects_list_subject_witness :
  exists message,
    @FirestoreService.get_available_subjects plain_repr list_subject_bank
    = Raise (HTTPException 500 (mkDetail message None)).
Proof.
  apply (@get_available_subjects_list_subject plain_repr list_subject_bank).
  - reflexivity.
  - exists (lit "q1"),
      ({[ "question" := VStr (lit "2+2?");
          "subject" := VList [lit "Aritmética"] ]} : dict),
      (lit "Aritmética"), [].
    split; vm_compute; reflexivity.
Defined.

(* ===================================================================== *)
(** ** The feedback service: validation, diff and prompt                  *)
(* ===================================================================== *)

Section FeedbackService.
Import Schemas Genai GeminiService.

(** X13: validation passes exactly when the question list is not empty,
    its length is the [total_questions] announced and the answers are as
    many; every other input raises a [GeminiException]. *)
Theorem validate_feedback_input_iff (qs : list Question) (ua : UserAttempt) :
  (_validate_feedback_input qs ua = Ok tt
   <-> qs <> [] /\ Z.of_nat (length qs) = total_questions ua
       /\ length (answers ua) = length qs)
  /\ (_validate_feedback_input qs ua = Ok tt
      \/ exists m, _validate_feedback_input qs ua = Raise (GeminiException m)).
Proof.
  split.
  - split; [apply validate_ok_inv |].
    intros (Hne & Htotal & Hlen). unfold _validate_feedback_input.
    destruct qs as [|q qs]; [done |].
    apply Z.eqb_eq in Htotal. apply Nat.eqb_eq in Hlen.
    by rewrite Htotal, Hlen.
  - unfold _validate_feedback_input. destruct qs as [|q qs]; [eauto |].
    destruct (Z.eqb _ _); cbn [negb]; [|eauto].
    destruct (Nat.eqb _ _); cbn [negb]; eauto.
Qed.

Lemma incorrect_loop_out_of_bounds (rest : list Question) :
  forall (i : nat) (ua : UserAttempt) (acc : list IncorrectQuestion),
    (i <= length (answers ua))%nat ->
    (length (answers ua) < i + length rest)%nat ->
    exists m, incorrect_loop i rest ua acc = Raise (IndexError m).
Proof.
  induction rest as [|q rest IH]; intros i ua acc Hi Hlen; simpl in *;
    [lia |].
  unfold index. destruct (answers ua !! i) as [a|] eqn:Ha; simpl; [|eauto].
  apply lookup_lt_Some in Ha.
  destruct (negb (a =? correct_answer q)); apply IH; lia.
Qed.

(** X14: the diff on its own, without validation before it. With fewer
    answers than questions it fails with an index error; with as many or
    more it returns the incorrectly answered questions, and the answers
    beyond the last question are never read. *)
Theorem get_incorrect_questions_bounds (qs : list Question)
    (ua : UserAttempt) :
  ((length (answers ua) < length qs)%nat ->
   exists m, _get_incorrect_questions qs ua = Raise (IndexError m))
  /\ ((length qs <= length (answers ua))%nat ->
      _get_incorrect_questions qs ua
      = Ok (map entry_of
              (incorrectly_answered qs (take (length qs) (answers ua))))).
Proof.
  split; intros Hlen; unfold _get_incorrect_questions.
  - apply incorrect_loop_out_of_bounds; simpl; lia.
  - rewrite incorrect_loop_in_bounds by (simpl; lia). rewrite drop_0.
    simpl. f_equal. f_equal. clear Hlen.
    generalize (answers ua). induction qs as [|q qs IH]; intros [|a ans];
      simpl; try done.
    destruct (decide (a = correct_answer q)); by rewrite IH.
Qed.

Lemma incorrect_loop_view (rest : list Question) :
  forall (rest' : list Question) (i : nat) (ua ua' : UserAttempt)
         (acc acc' : list IncorrectQuestion),
    quiz_view rest = quiz_view rest' ->
    answers ua = answers ua' ->
    iq_question <$> acc = iq_question <$> acc' ->
    match incorrect_loop i rest ua acc, incorrect_loop i rest' ua' acc' with
    | Ok l, Ok l' => iq_question <$> l = iq_question <$> l'
    | Raise e, Raise e' => e = e'
    | _, _ => False
    end.
Proof.
  induction rest as [|q rest IH]; intros [|q' rest'] i ua ua' acc acc'
    Hview Hans Hacc; simpl in Hview; try done.
  injection Hview as Hq Hc Hview. simpl. rewrite <- Hans. unfold index.
  destruct (answers ua !! i) as [a|]; simpl; [|done].
  rewrite <- Hc. destruct (negb (a =? correct_answer q)).
  - apply IH; [done | done |]. rewrite !fmap_app. simpl. by rewrite Hacc, Hq.
  - by apply IH.
Qed.

Lemma feedback_lines_questions (l : list IncorrectQuestion) :
  forall (l' : list IncorrectQuestion) (i : nat) (prompt : str),
    iq_question <$> l = iq_question <$> l' ->
    feedback_lines i l prompt = feedback_lines i l' prompt.
Proof.
  induction l as [|x l IH]; intros [|x' l'] i prompt Heq; simpl in *;
    try done.
  injection Heq as Hx Hl. unfold feedback_line. rewrite Hx. by apply IH.
Qed.

(** X15: the prompt is a function of the question texts, the correct
    indices, the answers and [total_questions] alone: the score, the
    options, the identifiers and the subjects of the request never reach
    the model. *)
Theorem feedback_prompt_depends_on_view (qs qs' : list Question)
    (ua ua' : UserAttempt) :
  quiz_view qs = quiz_view qs' ->
  answers ua = answers ua' ->
  total_questions ua = total_questions ua' ->
  feedback_prompt qs ua = feedback_prompt qs' ua'.
Proof.
  intros Hview Hans Htotal.
  assert (Hlen : length qs = length qs').
  { apply (f_equal length) in Hview. unfold quiz_view in Hview.
    by rewrite !length_map in Hview. }
  unfold feedback_prompt.
  assert (Hval : _validate_feedback_input qs ua
                 = _validate_feedback_input qs' ua').
  { unfold _validate_feedback_input. rewrite <- Hans, <- Htotal.
    destruct qs, qs'; try (simpl in Hlen; done). by rewrite Hlen. }
  rewrite <- Hval. destruct (_validate_feedback_input qs ua); simpl; [|done].
  unfold _get_incorrect_questions.
  pose proof (incorrect_loop_view qs qs' 0 ua ua' [] [] Hview Hans eq_refl)
    as Hloop.
  destruct (incorrect_loop 0 qs ua []) as [l|e],
    (incorrect_loop 0 qs' ua' []) as [l'|e']; simpl; try done.
  - destruct l as [|x l], l' as [|x' l']; simpl in Hloop; try done.
    f_equal. unfold _create_feedback_prompt. f_equal.
    by apply feedback_lines_questions.
  - by rewrite Hloop.
Qed.

(** X16: the count the feedback route logs is the number of questions
    the service lists in the review prompt; with fewer answers than
    questions the route itself fails with an index error, before the
    service is called. *)
Theorem incorrect_count_agrees (qs : list Question) (ans : list Z) :
  ((length qs <= length ans)%nat ->
   Endpoints.incorrect_count 0 qs ans
   = Ok (Z.of_nat (length (incorrectly_answered qs ans))))
  /\ ((length ans < length qs)%nat ->
      exists m, Endpoints.incorrect_count 0 qs ans = Raise (IndexError m)).
Proof.
  assert (Hok : forall rest i,
             (i + length rest <= length ans)%nat ->
             Endpoints.incorrect_count i rest ans
             = Ok (Z.of_nat (length (incorrectly_answered rest
                                       (drop i ans))))).
  { induction rest as [|q rest IH]; intros i Hlen; simpl in *; [done |].
    unfold index. destruct (ans !! i) as [a|] eqn:Ha.
    2: { apply lookup_ge_None in Ha. lia. }
    simpl. rewrite IH by lia. simpl. rewrite (drop_S _ _ _ Ha).
    destruct (decide (a = correct_answer q)) as [->|Hne].
    - by rewrite Z.eqb_refl.
    - apply Z.eqb_neq in Hne. rewrite Hne. simpl. f_equal. lia. }
  assert (Hfail : forall rest i,
             (i <= length ans)%nat ->
             (length ans < i + length rest)%nat ->
             exists m, Endpoints.incorrect_count i rest ans
                       = Raise (IndexError m)).
  { induction rest as [|q rest IH]; intros i Hi Hlen; simpl in *; [lia |].
    unfold index. destruct (ans !! i) as [a|] eqn:Ha; simpl; [|eauto].
    apply lookup_lt_Some in Ha.
    destruct (IH (S i)) as [m ->]; [lia | lia |]. simpl. eauto. }
  split; intros Hlen.
  - rewrite Hok by (simpl; lia). by rewrite drop_0.
  - apply Hfail; simpl; lia.
Qed.

End FeedbackService.

Lemma feedback_prompt_depends_on_view_witness :
  GeminiService.feedback_prompt one_question
    (Schemas.mkUserAttempt 0 1 [0])
  = GeminiService.feedback_prompt
      [Schemas.mkQuestion 7 (lit "2+2?") [lit "cuatro"; lit "cinco"] 1
         (Some (lit "Aritmética"))]
      (Schemas.mkUserAttempt 99 1 [0]).
Proof.
  apply (feedback_prompt_depends_on_view one_question
           [Schemas.mkQuestion 7 (lit "2+2?") [lit "cuatro"; lit "cinco"] 1
              (Some (lit "Aritmética"))]
           (Schemas.mkUserAttempt 0 1 [0])
           (Schemas.mkUserAttempt 99 1 [0])); reflexivity.
Defined.

Lemma get_incorrect_questions_bounds_witness :
  (exists m,
      GeminiService._get_incorrect_questions one_question
        (Schemas.mkUserAttempt 0 1 [])
      = Raise (IndexError m))
  /\ GeminiService._get_incorrect_questions one_question two_answers
     = Ok (map entry_of
             (incorrectly_answered one_question
                (take (length one_question)
                   (Schemas.answers two_answers)))).
Proof.
  split.
  - apply (get_incorrect_questions_bounds one_question
             (Schemas.mkUserAttempt 0 1 [])). simpl. lia.
  - apply (get_incorrect_questions_bounds one_question two_answers).
    simpl. lia.
Defined.

Lemma incorrect_count_agrees_witness :
  Endpoints.incorrect_count 0 one_question [0; 1]
  = Ok (Z.of_nat (length (incorrectly_answered one_question [0; 1]))).
Proof.
  apply (incorrect_count_agrees one_question [0; 1]). simpl. lia.
Defined.

(* ===================================================================== *)
(** ** The generation methods: what they return and when                  *)
(* ===================================================================== *)

Section Generation.
Import Schemas Genai GeminiService.
Context `{PyRepr}.

Lemma extract_ok_iff (response : option GenerateContentResponse) (t : str) :
  _extract_text_from_response response = Ok t
  <-> first_text response = Some t /\ ~ blank t.
Proof.
  pose proof (extract_cases response) as Hc.
  destruct (first_text response) as [t'|].
  - destruct Hc as [[Hnb ->]|[Hb [m ->]]].
    + split; [by intros [= <-] | by intros [[= <-] _]].
    + split; [done | by intros [[= <-] ?]].
  - destruct Hc as [m ->]. split; [done | by intros [? _]].
Qed.

Lemma gemini_try_ok {A} (body : result A) (a : A) :
  try_except body gemini_handlers = Ok a <-> body = Ok a.
Proof.
  destruct body as [a'|e]; simpl; [done |].
  destruct (gemini_handlers_status (A := A) e) as [message ->]. done.
Qed.

(** X17: an explanation is returned exactly when the question text is
    not blank and the model, called with the explanation prompt for that
    text, the configured model name, temperature 0.3 and the explanation
    token limit, answers with a response whose first text is not blank;
    what is returned is that text, as the model gave it. A response with
    no usable text leaves as status 500. *)
Theorem generate_explanation_returns (client : Client) (text : str) :
  (forall t,
      generate_explanation client text = Ok t
      <-> ~ blank text
          /\ exists response,
              generate_content client Settings.gemini_model
                (_create_explanation_prompt text)
                (mkConfig (3 # 10) Settings.max_explanation_tokens)
              = Ok response
              /\ first_text response = Some t /\ ~ blank t)
  /\ (forall response,
         ~ blank text ->
         generate_content client Settings.gemini_model
           (_create_explanation_prompt text)
           (mkConfig (3 # 10) Settings.max_explanation_tokens)
         = Ok response ->
         (forall t, first_text response = Some t -> blank t) ->
         exists message,
           generate_explanation client text
           = Raise (HTTPException 500 (mkDetail message None))).
Proof.
  split.
  - intros t. unfold generate_explanation. rewrite gemini_try_ok.
    unfold generate_explanation_body.
    destruct (str_truthy (strip text)) eqn:Hs; cbn [negb].
    + apply strip_truthy_not_blank in Hs.
      destruct (generate_content _ _ _ _) as [response|e]; cbn [bind].
      * destruct (_extract_text_from_response response) as [t'|e] eqn:He;
          cbn [bind].
        -- apply extract_ok_iff in He as [Hft Hnb]. split.
           ++ intros [= <-]. eauto.
           ++ intros (_ & r & [= <-] & Hft' & _). congruence.
        -- split; [done |]. intros (_ & r & [= <-] & Hft & Hnb).
           assert (Hok : _extract_text_from_response response = Ok t)
             by by apply extract_ok_iff.
           congruence.
      * split; [done | by intros (_ & r & ? & _)].
    + apply strip_falsy_blank in Hs. split; [done | by intros [? _]].
  - intros response Hnb Hcall Hblank. unfold generate_explanation,
      generate_explanation_body.
    apply strip_truthy_not_blank in Hnb. rewrite Hnb, Hcall. cbn [negb bind].
    pose proof (extract_cases response) as Hc.
    destruct (first_text response) as [t|].
    + destruct Hc as [[Hnbt _]|[_ [m ->]]]; [by destruct Hnbt; auto |].
      simpl. eauto.
    + destruct Hc as [m ->]. simpl. eauto.
Qed.

(** X18: feedback is returned exactly when the prompt could be built
    (the input is valid) and the model, called with that prompt,
    temperature 0.6 and the feedback token limit, answers with a response
    whose first text is not blank; what is returned is that text. *)
Theorem generate_feedback_returns (client : Client) (qs : list Question)
    (ua : UserAttempt) (t : str) :
  generate_feedback client qs ua = Ok t
  <-> exists prompt response,
      feedback_prompt qs ua = Ok prompt
      /\ generate_content client Settings.gemini_model prompt
           (mkConfig (6 # 10) Settings.max_feedback_tokens)
         = Ok response
      /\ first_text response = Some t /\ ~ blank t.
Proof.
  unfold generate_feedback. rewrite gemini_try_ok.
  unfold generate_feedback_body.
  destruct (feedback_prompt qs ua) as [prompt|e]; cbn [bind].
  - destruct (generate_content _ _ _ _) as [response|e] eqn:Hcall;
      cbn [bind].
    + destruct (_extract_text_from_response response) as [t'|e] eqn:He;
        cbn [bind].
      * apply extract_ok_iff in He as [Hft Hnb]. split.
        -- intros [= <-]. eauto 6.
        -- intros (p & r & [= <-] & Hc & Hft' & _).
           rewrite Hcall in Hc. injection Hc as <-. congruence.
      * split; [done |]. intros (p & r & [= <-] & Hc & Hft & Hnb).
        rewrite Hcall in Hc. injection Hc as <-.
        assert (Hok : _extract_text_from_response response = Ok t)
          by by apply extract_ok_iff.
        congruence.
    + split; [done |]. intros (p & r & [= <-] & Hc & _). congruence.
  - split; [done | by intros (p & r & ? & _)].
Qed.

(** X19: the connectivity test never raises: it always returns a report,
    whose status is "success" exactly when the model answered with a
    first candidate whose content has a first part, and "error"
    otherwise, an exception raised by the call included. *)
Theorem test_connection_reports (client : Client) :
  exists report,
    test_connection client = Ok report
    /\ (report_status report = lit "success"
        \/ report_status report = lit "error")
    /\ (report_status report = lit "success"
        <-> exists response,
            generate_content client Settings.gemini_model
              (lit "Di 'Hola mundo'") (mkConfig (1 # 10) 10) = Ok response
            /\ has_first_part response).
Proof.
  assert (Hne : lit "error" <> lit "success") by (vm_compute; discriminate).
  unfold test_connection, test_connection_body, has_first_part.
  destruct (generate_content _ _ _ _) as [response|e]; cbn [bind].
  2: { eexists. split; [done |]. split; [by right |]. split; [done |].
       by intros (r & ? & _). }
  destruct response as [[[[|c cs]|]]|]; cbn [try_except].
  2: destruct (content c) as [ct|] eqn:Hct; cbn [try_except].
  2: destruct (parts ct) as [[|p ps]|] eqn:Hps; cbn [try_except].
  all: eexists; (split; [done |]); cbn [report_status].
  all: try (split; [by right |]; split; [done |];
            intros (r & [= <-] & r' & c' & cs' & ct' & p' & ps'
                    & Hr & Hc & Hct' & Hps');
            simplify_eq/=; congruence).
  split; [by left |]. split; [|done]. intros _.
  eexists. split; [done |]. by exists (mkResponse (Some (c :: cs))), c, cs, ct, p, ps.
Qed.

End Generation.

Lemma generate_explanation_returns_witness :
  @GeminiService.generate_explanation plain_repr
    (echo_client (lit "Cuatro.")) (lit "2+2?")
  = Ok (lit "Cuatro.").
Proof.
  destruct (@generate_explanation_returns plain_repr
              (echo_client (lit "Cuatro.")) (lit "2+2?")) as [Hiff _].
  apply Hiff. split.
  - intros Hb. inversion Hb. discriminate.
  - eexists. split; [reflexivity |]. split; [reflexivity |].
    intros Hb. inversion Hb. discriminate.
Defined.
